(** * Chronicle: commit orchestration and commit-message generation

    A shallow embedding of [src/extension.ts].  The source file holds two
    revisions of the extension: the basic one (lines 1-157), embedded in
    [Module Basic], and the AI-enabled one (lines 158-420), embedded in
    [Module AI].

    Conventions of the embedding:
    - a JavaScript string is a [string]; its characters stand for UTF-16
      code units below 256 (the Latin-1 range), which covers every literal
      the program compares against;
    - [Date.now()] is an [N] (milliseconds since the epoch);
    - the host (editor, git subprocesses, network, the user) is a record
      of oracles, [Host]; a handler is a function of the host and of the
      mutable state, returning how it ended (it returned, it threw, or it
      awaits a promise that never settles), the state it left and the
      ordered trace of effects it performed;
    - a handler runs to its end, or to the await that never settles,
      before the next one starts: two handlers interleaved at their
      [await]s are not modelled. *)

From Stdlib Require Import String Ascii List Bool Arith Lia NArith DecimalString.
Import ListNotations.
Local Open Scope string_scope.
Local Open Scope list_scope.
Local Open Scope nat_scope.

Set Implicit Arguments.

(* ================================================================== *)
(** ** JavaScript string primitives used by the extension *)
(* ================================================================== *)

Module JS.

Definition LF : ascii := "010"%char.
Definition DQUOTE : ascii := "034"%char.

(** WhiteSpace and LineTerminator code units below 256: TAB, LF, VT, FF,
    CR, SP and NBSP. *)
Definition isWhiteSpace (c : ascii) : bool :=
  let n := nat_of_ascii c in
  ((9 <=? n) && (n <=? 13)) || (n =? 32) || (n =? 160).

Fixpoint trimStart (s : string) : string :=
  match s with
  | EmptyString => EmptyString
  | String c s' => if isWhiteSpace c then trimStart s' else s
  end.

Fixpoint trimEnd (s : string) : string :=
  match s with
  | EmptyString => EmptyString
  | String c s' =>
      match trimEnd s' with
      | EmptyString => if isWhiteSpace c then EmptyString else String c EmptyString
      | r => String c r
      end
  end.

(** [s.trim()] *)
Definition trim (s : string) : string := trimEnd (trimStart s).

(** Truthiness of a string: only [''] is falsy. *)
Definition truthy (s : string) : bool :=
  match s with EmptyString => false | _ => true end.

(** [s.split(sep)] for a one-character separator; never the empty list. *)
Fixpoint split (sep : ascii) (s : string) : list string :=
  match s with
  | EmptyString => [EmptyString]
  | String c s' =>
      if Ascii.eqb c sep then EmptyString :: split sep s'
      else match split sep s' with
           | h :: t => String c h :: t
           | [] => [String c EmptyString]
           end
  end.

(** [stdout.trim().split('\n').filter(f => f)] *)
Definition lines (stdout : string) : list string :=
  filter truthy (split LF (trim stdout)).

(** [s.startsWith(p)] *)
Definition startsWith (p s : string) : bool := prefix p s.

(** [s.includes(p)] *)
Fixpoint includes (p s : string) : bool :=
  prefix p s || match s with
                | EmptyString => false
                | String _ s' => includes p s'
                end.

(** [s.endsWith(p)] *)
Definition endsWith (p s : string) : bool :=
  (String.length p <=? String.length s) &&
  String.eqb (substring (String.length s - String.length p) (String.length p) s) p.

Definition lowerChar (c : ascii) : ascii :=
  let n := nat_of_ascii c in
  if ((65 <=? n) && (n <=? 90)) ||
     ((192 <=? n) && (n <=? 222) && negb (n =? 215))
  then ascii_of_nat (n + 32) else c.

(** [s.toLowerCase()] *)
Fixpoint toLowerCase (s : string) : string :=
  match s with
  | EmptyString => EmptyString
  | String c s' => String (lowerChar c) (toLowerCase s')
  end.

(** [s.slice(0, n)] and [s.substring(0, n)] for a literal [n >= 0]. *)
Definition slice0 (n : nat) (s : string) : string := substring 0 n s.

(** [s.replace(/"/g, '\\"')]: a backslash before every double quote. *)
Fixpoint escapeQuotes (s : string) : string :=
  match s with
  | EmptyString => EmptyString
  | String c s' =>
      if Ascii.eqb c DQUOTE
      then String "\"%char (String DQUOTE (escapeQuotes s'))
      else String c (escapeQuotes s')
  end.

(** Template rendering of a non-negative integer, [`${n}`]. *)
Definition ofNat (n : nat) : string := NilZero.string_of_uint (Nat.to_uint n).

(** [path.posix.basename]: drop trailing slashes, keep what follows the
    last remaining slash. *)
Fixpoint dropTrailingSlashes (s : string) : string :=
  match s with
  | EmptyString => EmptyString
  | String c s' =>
      match dropTrailingSlashes s' with
      | EmptyString => if Ascii.eqb c "/" then EmptyString else String c EmptyString
      | r => String c r
      end
  end.

Fixpoint lastSegment (s : string) : string :=
  match s with
  | EmptyString => EmptyString
  | String c s' =>
      if includes "/" s' then lastSegment s'
      else if Ascii.eqb c "/" then s' else s
  end.

Definition posix_basename (p : string) : string :=
  lastSegment (dropTrailingSlashes p).

(** [path.posix.extname]: from the last dot of the basename, unless that
    dot opens the basename or the basename is [..]. *)
Fixpoint fromLastDot (s : string) : option string :=
  match s with
  | EmptyString => None
  | String c s' =>
      match fromLastDot s' with
      | Some e => Some e
      | None => if Ascii.eqb c "." then Some s else None
      end
  end.

Definition posix_extname (p : string) : string :=
  let b := posix_basename p in
  match fromLastDot b with
  | Some e => if String.eqb e b || String.eqb b ".." then EmptyString else e
  | None => EmptyString
  end.

End JS.

(* ================================================================== *)
(** ** The host: editor, subprocesses, network and user *)
(* ================================================================== *)

(** A thrown [Error] object, as far as the handlers look at it:
    [err.message] (line 282) and the string form [`${err}`] (line 105),
    which [toString] builds from the error's own name, the code of
    Node's own errors and the message. *)
Record JsError : Type := {
  errMessage : string;
  errString : string
}.

(** [new Error(message)] *)
Definition plainError (message : string) : JsError :=
  {| errMessage := message; errString := "Error: " ++ message |}.

(** Outcome of [execAsync(cmd, { cwd })]: the captured standard output, or
    a rejection with the error of the subprocess. *)
Inductive ExecResult : Type :=
| ExecOk (stdout : string)
| ExecFailed (err : JsError).

(** What [JSON.parse(data)] followed by
    [json.choices?.[0]?.message?.content?.trim()] does on the body of a
    completion response: it throws (malformed JSON, [null], a content that
    is not a string), or it reaches the content, which may be missing. *)
Inductive GroqBody : Type :=
| BodyThrows
| BodyContent (content : option string).

(** What becomes of the HTTPS request of [callGroqAPI] (lines 309-341):
    the request emits 'error', the socket times out, the response emits
    'end' with its status and body, or the response is cut short after
    its headers, when none of the three listeners is ever called. *)
Inductive GroqReply : Type :=
| GroqError
| GroqTimeout
| GroqResponse (statusCode : nat) (body : GroqBody)
| GroqCutShort.

(** The user's answer to 'Groq API key not set. Set it now?'. [SetupYes]
    carries what the key input box then returns. *)
Inductive SetupReply : Type :=
| SetupYes (key : option string)
| SetupNo
| SetupDisableAI
| SetupDismissed.

(** [vscode.TextEditor] and [vscode.TextDocument], reduced to the file
    name; the document URI is identified with it. *)
Record Editor : Type := { fileName : string }.

Record Host : Type := {
  (** [Date.now()] *)
  dateNow : N;
  (** [execAsync(cmd, { cwd })], by working directory and command line;
      a cycle issues no command line twice, so the answer may depend on
      the repository as it is when the command runs *)
  exec : string -> string -> ExecResult;
  (** [vscode.window.showInputBox({ prompt, value })] for the commit message *)
  inputBox : string -> string -> option string;
  (** configuration section 'chronicle' *)
  cfgAutoCommit : bool;
  cfgAutoPush : bool;
  cfgFileExtensions : list string;
  (** [vscode.workspace.getWorkspaceFolder(uri)?.uri.fsPath] *)
  getWorkspaceFolder : string -> option string;
  (** [vscode.workspace.workspaceFolders], as the list of [uri.fsPath] *)
  workspaceFolders : option (list string);
  (** [fs.existsSync] *)
  existsSync : string -> bool;
  (** [path.join], [path.basename], [path.extname] *)
  path_join : string -> string -> string;
  path_basename : string -> string;
  path_extname : string -> string;
  (** the user's successive answers to the missing-key prompt during one
      cycle; once they run out the prompt is dismissed *)
  setupReplies : list SetupReply;
  (** the completion service, by API key and prompt *)
  groq : string -> string -> GroqReply
}.

(** Effects a handler performs, in order. *)
Inductive Event : Type :=
| Exec (cwd cmd : string)
| ShowWarningMessage (msg : string)
| ShowInformationMessage (msg : string)
| ShowErrorMessage (msg : string)
| ShowInputBox (prompt value : string)
| AskSetup
| AskKey
| GroqRequest (apiKey prompt : string).

(** The module-level variables of the extension (lines 9-12, 167-170). *)
Record Globals : Type := {
  pausedUntil : option N;
  sessionCommits : nat;
  sessionFilesCommitted : nat;
  lastSavedFile : option string
}.

Definition initialGlobals : Globals :=
  {| pausedUntil := None; sessionCommits := 0;
     sessionFilesCommitted := 0; lastSavedFile := None |}.

Definition setPausedUntil (p : option N) (g : Globals) : Globals :=
  {| pausedUntil := p; sessionCommits := sessionCommits g;
     sessionFilesCommitted := sessionFilesCommitted g;
     lastSavedFile := lastSavedFile g |}.

Definition setLastSavedFile (f : option string) (g : Globals) : Globals :=
  {| pausedUntil := pausedUntil g; sessionCommits := sessionCommits g;
     sessionFilesCommitted := sessionFilesCommitted g;
     lastSavedFile := f |}.

Definition incrSessionCommits (g : Globals) : Globals :=
  {| pausedUntil := pausedUntil g; sessionCommits := S (sessionCommits g);
     sessionFilesCommitted := sessionFilesCommitted g;
     lastSavedFile := lastSavedFile g |}.

Definition addSessionFiles (n : nat) (g : Globals) : Globals :=
  {| pausedUntil := pausedUntil g; sessionCommits := sessionCommits g;
     sessionFilesCommitted := sessionFilesCommitted g + n;
     lastSavedFile := lastSavedFile g |}.

(** Truthiness of [string | undefined]. *)
Definition truthyOpt (o : option string) : bool :=
  match o with Some s => JS.truthy s | None => false end.

(** [pausedUntil && Date.now() < pausedUntil] *)
Definition isPaused (now : N) (g : Globals) : bool :=
  match pausedUntil g with
  | Some p => negb (N.eqb p 0) && N.ltb now p
  | None => false
  end.

(** [`"${s}"`] *)
Definition quoted (s : string) : string :=
  String JS.DQUOTE (s ++ String JS.DQUOTE EmptyString).

(* ================================================================== *)
(** ** Handlers as state-and-trace computations that may throw *)
(* ================================================================== *)

Module Eff.

(** How an [async] function ends: it returns, it throws, or it awaits
    a promise that never settles. *)
Inductive Outcome (A : Type) : Type :=
  | Done (a : A)
  | Thrown (err : JsError)
  | Pending.
Arguments Thrown {A} err.
Arguments Pending {A}.

(** The function returns ... *)
Definition settles {A} (o : Outcome A) : Prop := exists a, o = Done a.

(** ... or at least does not throw. *)
Definition ends {A} (o : Outcome A) : Prop := settles o \/ o = Pending.

Definition M (S A : Type) : Type := S -> Outcome A * S * list Event.

Section Ops.
Variable S : Type.

Definition ret {A} (a : A) : M S A := fun s => (Done a, s, []).

Definition bind {A B} (c : M S A) (k : A -> M S B) : M S B :=
  fun s =>
    match c s with
    | (Done a, s1, t1) =>
        match k a s1 with (r, s2, t2) => (r, s2, t1 ++ t2) end
    | (Thrown e, s1, t1) => (Thrown e, s1, t1)
    | (Pending, s1, t1) => (Pending, s1, t1)
    end.

Definition throw {A} (e : JsError) : M S A := fun s => (Thrown e, s, []).

(** [await] of a promise that never settles *)
Definition never {A} : M S A := fun s => (Pending, s, []).

(** [try { c } catch (err) { handler(err) }] *)
Definition tryCatch {A} (c : M S A) (handler : JsError -> M S A) : M S A :=
  fun s =>
    match c s with
    | (Done a, s1, t1) => (Done a, s1, t1)
    | (Thrown e, s1, t1) =>
        match handler e s1 with (r, s2, t2) => (r, s2, t1 ++ t2) end
    | (Pending, s1, t1) => (Pending, s1, t1)
    end.

Definition emit (e : Event) : M S unit := fun s => (Done tt, s, [e]).
Definition get : M S S := fun s => (Done s, s, []).
Definition modify (f : S -> S) : M S unit := fun s => (Done tt, f s, []).

(** [await execAsync(cmd, { cwd })] *)
Definition execAsync (h : Host) (cwd cmd : string) : M S string :=
  fun s =>
    match exec h cwd cmd with
    | ExecOk out => (Done out, s, [Exec cwd cmd])
    | ExecFailed e => (Thrown e, s, [Exec cwd cmd])
    end.

(** [await vscode.window.showInputBox({ prompt, value, ... })] *)
Definition showInputBox (h : Host) (prompt value : string)
  : M S (option string) :=
  fun s => (Done (inputBox h prompt value), s, [ShowInputBox prompt value]).
End Ops.

Arguments ret {S A} a.
Arguments bind {S A B} c k.
Arguments throw {S A} e.
Arguments never {S A}.
Arguments tryCatch {S A} c handler.
Arguments emit {S} e.
Arguments get {S}.
Arguments modify {S} f.
Arguments execAsync {S} h cwd cmd.
Arguments showInputBox {S} h prompt value.

Definition result {S A} (r : Outcome A * S * list Event) : Outcome A := fst (fst r).
Definition final {S A} (r : Outcome A * S * list Event) : S := snd (fst r).
Definition trace {S A} (r : Outcome A * S * list Event) : list Event := snd r.

End Eff.
Import Eff.

Declare Scope eff_scope.
Delimit Scope eff_scope with eff.
Notation "x <- c ;; k" := (bind c (fun x => k))
  (at level 61, c at next level, right associativity) : eff_scope.
Notation "c ;; k" := (bind c (fun _ => k))
  (at level 61, right associativity) : eff_scope.

(* ================================================================== *)
(** ** The basic revision (lines 1-157) *)
(* ================================================================== *)

Module Basic.
  Local Open Scope eff_scope.

(** The book emoji that opens the messages of this revision, as its
    four UTF-8 bytes. *)
Definition books : string :=
  String "240" (String "159" (String "147" (String "154" EmptyString))).

Definition label (s : string) : string := books ++ " DevChronicle: " ++ s.

(** [`${err}`] for the error caught at line 104. *)
Definition errToString (err : JsError) : string := errString err.

Section WithHost.
Variable h : Host.

(** lines 36-44 *)
Definition handleFileSave (document : Editor) : M Globals unit :=
  if negb (cfgAutoCommit h) then ret tt
  else if negb (existsb (String.eqb (path_extname h (fileName document)))
                        (cfgFileExtensions h))
  then ret tt
  else modify (setLastSavedFile (Some (fileName document))).

(** lines 153-155 *)
Definition isGitRepository (workspacePath : string) : bool :=
  existsSync h (path_join h workspacePath ".git").

(** lines 130-151 *)
Definition generateCommitMessage (workspacePath : string) : M Globals string :=
  tryCatch
    (stdout <- execAsync h workspacePath "git diff --name-only --cached" ;;
     let files := JS.lines stdout in
     if (List.length files =? 0) then ret "Update code"
     else
       let hasReact :=
         existsb (fun f => JS.endsWith ".tsx" f || JS.endsWith ".jsx" f) files in
       let hasStyles :=
         existsb (fun f => JS.endsWith ".css" f || JS.endsWith ".scss" f) files in
       let hasApi :=
         existsb (fun f => JS.includes "api/" f || JS.includes "server/" f) files in
       let hasConfig :=
         existsb (fun f => JS.endsWith ".json" f || JS.endsWith ".yml" f) files in
       if hasReact && hasStyles then ret "Update components and styling"
       else if hasReact then ret "Update React components"
       else if hasStyles then ret "Update styling"
       else if hasApi then ret "Update API endpoints"
       else if hasConfig then ret "Update configuration"
       else if (List.length files =? 1)
       then ret ("Update " ++ path_basename h (hd EmptyString files))%string
       else ret ("Update " ++ JS.ofNat (List.length files) ++ " files")%string)
    (fun _ => ret "Update code").

(** lines 63-107 *)
Definition autoCommitAndPush (workspacePath : string) : M Globals unit :=
  tryCatch
    (status <- execAsync h workspacePath "git status --porcelain" ;;
     if negb (JS.truthy (JS.trim status)) then ret tt
     else
       conflicts <- execAsync h workspacePath "git diff --name-only --diff-filter=U" ;;
       if JS.truthy (JS.trim conflicts)
       then emit (ShowWarningMessage
                    (label "Merge conflicts detected. Auto-commit skipped."))
       else
         message <- generateCommitMessage workspacePath ;;
         userMessage <- showInputBox h (label "Commit message") message ;;
         match userMessage with
         | None => emit (ShowInformationMessage (label "Commit canceled."))
         | Some userMessage =>
             let message := userMessage in
             execAsync h workspacePath "git add ." ;;
             execAsync h workspacePath ("git commit -m " ++ quoted message) ;;
             let pushEnabled := cfgAutoPush h in
             (if pushEnabled
              then execAsync h workspacePath "git push" ;; ret tt
              else ret tt) ;;
             modify incrSessionCommits ;;
             out <- execAsync h workspacePath "git diff --name-only HEAD~1" ;;
             let changedFiles := JS.lines out in
             modify (addSessionFiles (List.length changedFiles)) ;;
             g <- get ;;
             emit (ShowInformationMessage
                     (label ("Committed & pushed! Commits today: "
                             ++ JS.ofNat (sessionCommits g) ++ ", Files: "
                             ++ JS.ofNat (sessionFilesCommitted g))))
         end)
    (fun err =>
       emit (ShowErrorMessage (label ("Commit failed - " ++ errToString err)))).

(** lines 46-61 *)
Definition handleFileSwitch (editor : option Editor) : M Globals unit :=
  match editor with
  | None => ret tt
  | Some editor =>
      g <- get ;;
      if negb (truthyOpt (lastSavedFile g)) then ret tt
      else if isPaused (dateNow h) g then ret tt
      else
        let currentFile := fileName editor in
        if String.eqb currentFile
             (match lastSavedFile g with Some f => f | None => EmptyString end)
        then ret tt
        else
          match getWorkspaceFolder h (fileName editor) with
          | None => ret tt
          | Some workspacePath =>
              if negb (isGitRepository workspacePath) then ret tt
              else
                autoCommitAndPush workspacePath ;;
                modify (setLastSavedFile None)
          end
  end.

(** lines 109-117; [workspaceFolders[0].uri] on an empty array is a
    [TypeError]. *)
Definition manualCommit : M Globals unit :=
  match workspaceFolders h with
  | None => emit (ShowErrorMessage (label "No workspace folder found."))
  | Some [] =>
      throw {| errMessage := "Cannot read properties of undefined (reading 'uri')";
               errString := "TypeError: Cannot read properties of undefined (reading 'uri')" |}
  | Some (workspacePath :: _) => autoCommitAndPush workspacePath
  end.

(** lines 119-122 *)
Definition pauseAutoCommit : M Globals unit :=
  modify (setPausedUntil (Some (dateNow h + 60 * 60 * 1000)%N)) ;;
  emit (ShowInformationMessage (label "Auto-commit paused for 1 hour.")).

(** lines 124-127 *)
Definition resumeAutoCommit : M Globals unit :=
  modify (setPausedUntil None) ;;
  emit (ShowInformationMessage (label "Auto-commit resumed.")).

End WithHost.
End Basic.

(* ================================================================== *)
(** ** The AI-enabled revision (lines 158-420) *)
(* ================================================================== *)

Module AI.
  Local Open Scope eff_scope.

(** The module-level variables together with the two pieces of host
    state this revision writes: the secret 'groq-api-key' and the
    setting 'chronicle.useAICommitMessages'. *)
Record World : Type := {
    globals : Globals;
    secretKey : option string;
    useAICommitMessages : bool
  }.

Definition onGlobals (f : Globals -> Globals) (w : World) : World :=
  {| globals := f (globals w); secretKey := secretKey w;
     useAICommitMessages := useAICommitMessages w |}.

Definition storeSecret (k : string) (w : World) : World :=
  {| globals := globals w; secretKey := Some k;
     useAICommitMessages := useAICommitMessages w |}.

Definition updateUseAI (b : bool) (w : World) : World :=
  {| globals := globals w; secretKey := secretKey w;
     useAICommitMessages := b |}.

(** [validateInput] of the key input box (line 200): the box only ever
    returns a value that passes it. *)
Definition validGroqKey (v : string) : bool :=
  JS.startsWith "gsk_" v && (30 <? String.length v).

Definition keyBoxResult (reply : option string) : option string :=
  match reply with
  | Some v => if validGroqKey v then Some v else None
  | None => None
  end.

(** line 327 *)
Definition types : list string :=
  ["feat"; "fix"; "docs"; "style"; "refactor"; "test"; "chore"].

(** Lines 323-332: from the content of the first choice to the resolved
    message. *)
Definition postProcess (content : option string) : string :=
  let text := match content with
              | Some c => JS.trim c
              | None => EmptyString
              end in
  let text := hd EmptyString (JS.split JS.LF text) in
  if negb (JS.truthy text) then "chore: update"
  else
    let hasType :=
      existsb (fun t => JS.startsWith (t ++ ":") (JS.toLowerCase text)
                        || JS.includes (t ++ "(") text) types in
    let text := if negb hasType then ("chore: " ++ text)%string else text in
    if 72 <? String.length text then (JS.slice0 69 text ++ "...")%string else text.

(** line 289 *)
Definition promptFor (diff : string) : string :=
  ("One-line conventional commit (<72 chars) for this staged diff:"
   ++ String JS.LF diff
   ++ String JS.LF (String JS.LF "Examples:")
   ++ String JS.LF "fix: add login guard"
   ++ String JS.LF "feat: add dark mode"
   ++ String JS.LF (String JS.LF "Commit message:"))%string.

Section WithHost.
Variable h : Host.

(** lines 194-207 *)
Definition setGroqAPIKey (reply : option string) : M World unit :=
  emit AskKey ;;
  match keyBoxResult reply with
  | Some apiKey =>
      if JS.truthy apiKey
      then modify (storeSecret apiKey) ;;
           emit (ShowInformationMessage "Groq API key saved!")
      else ret tt
  | None => ret tt
  end.

(** lines 209-216 *)
Definition testGroqAPI : M World unit :=
  w <- get ;;
  if truthyOpt (secretKey w)
  then
    let key := match secretKey w with Some k => k | None => EmptyString end in
    emit (ShowInformationMessage ("Groq key: " ++ JS.slice0 10 key ++ "..."))
  else emit (ShowWarningMessage "No Groq key found").

(** lines 287-345; console output is left out. *)
Definition callGroqAPI (apiKey diff : string) : M World (option string) :=
  let prompt := promptFor diff in
  emit (GroqRequest apiKey prompt) ;;
  match groq h apiKey prompt with
  | GroqError => ret None
  | GroqTimeout => ret None
  | GroqResponse statusCode body =>
      if negb (statusCode =? 200) then ret None
      else match body with
           | BodyThrows => ret None
           | BodyContent content => ret (Some (postProcess content))
           end
  | GroqCutShort => never
  end.

(** lines 347-373; the recursion of line 356 consumes one answer of
    the user per round. *)
Fixpoint generateAICommitMessage (workspacePath : string)
         (replies : list SetupReply) : M World (option string) :=
  w <- get ;;
  if negb (truthyOpt (secretKey w))
  then
    emit AskSetup ;;
    match replies with
    | SetupYes key :: replies' =>
        setGroqAPIKey key ;;
        generateAICommitMessage workspacePath replies'
    | SetupDisableAI :: _ =>
        modify (updateUseAI false) ;;
        ret None
    | _ => ret None
    end
  else
    let apiKey := match secretKey w with Some k => k | None => EmptyString end in
    tryCatch
      (diff <- execAsync h workspacePath "git diff --cached" ;;
       if negb (JS.truthy (JS.trim diff)) then ret None
       else callGroqAPI apiKey (JS.slice0 1500 diff))
      (fun _ => ret None).

(** lines 382-390: the rule-based part of [generateCommitMessage]. *)
Definition ruleBasedMessage (workspacePath : string) : M World string :=
  tryCatch
    (stdout <- execAsync h workspacePath "git diff --name-only --cached" ;;
     let files := JS.lines stdout in
     if (List.length files =? 0) then ret "chore: update"
     else if (List.length files =? 1)
     then ret ("chore: update " ++ path_basename h (hd EmptyString files))%string
     else ret ("chore: update " ++ JS.ofNat (List.length files) ++ " files")%string)
    (fun _ => ret "chore: update").

(** lines 375-391 *)
Definition generateCommitMessage (workspacePath : string) : M World string :=
  w <- get ;;
  let useAI := useAICommitMessages w in
  ai <- (if useAI
         then generateAICommitMessage workspacePath (setupReplies h)
         else ret None) ;;
  if truthyOpt ai
  then ret (match ai with Some a => a | None => EmptyString end)
  else ruleBasedMessage workspacePath.

(** lines 416-418 *)
Definition isGitRepository (p : string) : bool :=
  existsSync h (path_join h p ".git").

(** lines 242-284 *)
Definition autoCommitAndPush (workspacePath : string) : M World unit :=
  tryCatch
    (stdout <- execAsync h workspacePath "git status --porcelain" ;;
     if negb (JS.truthy (JS.trim stdout)) then ret tt
     else
       conflicts <- execAsync h workspacePath "git diff --name-only --diff-filter=U" ;;
       if JS.truthy (JS.trim conflicts)
       then emit (ShowWarningMessage "Chronicle: Merge conflicts. Skipped.")
       else
         execAsync h workspacePath "git add ." ;;
         message <- generateCommitMessage workspacePath ;;
         userMessage <- showInputBox h "Edit commit message or press Enter" message ;;
         match userMessage with
         | None => emit (ShowInformationMessage "Commit canceled.")
         | Some userMessage =>
             let message :=
               if JS.truthy userMessage then userMessage else "chore: update" in
             execAsync h workspacePath
               ("git commit -m " ++ quoted (JS.escapeQuotes message)) ;;
             let push := cfgAutoPush h in
             (if push
              then execAsync h workspacePath "git push" ;; ret tt
              else ret tt) ;;
             modify (onGlobals incrSessionCommits) ;;
             out <- execAsync h workspacePath "git diff --name-only HEAD~1" ;;
             let files := JS.lines out in
             modify (onGlobals (addSessionFiles (List.length files))) ;;
             w <- get ;;
             emit (ShowInformationMessage
                     ("Committed" ++ (if push then " & pushed" else "")
                      ++ "! Today: " ++ JS.ofNat (sessionCommits (globals w))
                      ++ " commits, "
                      ++ JS.ofNat (sessionFilesCommitted (globals w))
                      ++ " files"))
         end)
    (fun err => emit (ShowErrorMessage ("Commit failed: " ++ errMessage err))).

(** lines 218-226 *)
Definition handleFileSave (document : Editor) : M World unit :=
  if negb (cfgAutoCommit h) then ret tt
  else if negb (existsb (String.eqb (path_extname h (fileName document)))
                        (cfgFileExtensions h))
  then ret tt
  else modify (onGlobals (setLastSavedFile (Some (fileName document)))).

(** lines 228-240 *)
Definition handleFileSwitch (editor : Editor) : M World unit :=
  w <- get ;;
  let g := globals w in
  if negb (truthyOpt (lastSavedFile g)) || isPaused (dateNow h) g then ret tt
  else if String.eqb (fileName editor)
            (match lastSavedFile g with Some f => f | None => EmptyString end)
  then ret tt
  else
    match getWorkspaceFolder h (fileName editor) with
    | None => ret tt
    | Some wp =>
        if negb (isGitRepository wp) then ret tt
        else
          autoCommitAndPush wp ;;
          modify (onGlobals (setLastSavedFile None))
    end.

(** lines 176-178: the listener registered for active-editor changes *)
Definition onDidChangeActiveTextEditor (editor : option Editor) : M World unit :=
  match editor with
  | Some editor => handleFileSwitch editor
  | None => ret tt
  end.

(** lines 393-404 *)
Definition manualCommit : M World unit :=
  match workspaceFolders h with
  | Some (folder :: _) =>
      if negb (isGitRepository folder)
      then emit (ShowErrorMessage "Not a git repo.")
      else autoCommitAndPush folder
  | _ => emit (ShowErrorMessage "No workspace folder.")
  end.

(** lines 406-409 *)
Definition pauseAutoCommit : M World unit :=
  modify (onGlobals (setPausedUntil (Some (dateNow h + 3600000)%N))) ;;
  emit (ShowInformationMessage "Auto-commit paused for 1 hour.").

(** lines 411-414 *)
Definition resumeAutoCommit : M World unit :=
  modify (onGlobals (setPausedUntil None)) ;;
  emit (ShowInformationMessage "Auto-commit resumed.").

End WithHost.
End AI.

(* ================================================================== *)
(** ** Vocabulary of the specification *)
(* ================================================================== *)

Module Spec.

(** The git command lines the engine relies on. *)
Definition statusCmd : string := "git status --porcelain".
Definition conflictsCmd : string := "git diff --name-only --diff-filter=U".
Definition stageAllCmd : string := "git add .".
Definition stagedNamesCmd : string := "git diff --name-only --cached".
Definition stagedDiffCmd : string := "git diff --cached".
Definition pushCmd : string := "git push".
Definition previousCmd : string := "git diff --name-only HEAD~1".

Definition isCommitCmd (cmd : string) : bool := JS.startsWith "git commit" cmd.

(** A leading [type:] or [type(], matched case-insensitively. *)
Definition hasTypePrefix (msg : string) : bool :=
  existsb (fun t => JS.startsWith (t ++ ":") (JS.toLowerCase msg)
                    || JS.startsWith (t ++ "(") (JS.toLowerCase msg))
          AI.types.

(** What the client may resolve to: [Unavailable], or a message of at
    most 72 characters with a conventional-commit type prefix. *)
Definition acceptable (r : option string) : Prop :=
  match r with
  | None => True
  | Some msg => String.length msg <= 72 /\ hasTypePrefix msg = true
  end.

(** The fallback rules in the words of the specification, over the list
    of staged paths. *)
Definition fallbackRule (basename : string -> string) (staged : list string)
  : string :=
  match staged with
  | [] => "chore: update"
  | [f] => "chore: update " ++ basename f
  | _ => "chore: update " ++ JS.ofNat (List.length staged) ++ " files"
  end.



(** Output of a name listing: every path followed by a line feed. *)
Fixpoint nameListing (paths : list string) : string :=
  match paths with
  | [] => EmptyString
  | p :: rest => p ++ String JS.LF (nameListing rest)
  end.


(** Trace predicates. *)
Definition invoked (cwd cmd : string) (t : list Event) : Prop :=
  In (Exec cwd cmd) t.

Definition commitInvoked (t : list Event) : Prop :=
  exists cwd cmd, In (Exec cwd cmd) t /\ isCommitCmd cmd = true.

Definition warned (t : list Event) : Prop :=
  exists msg, In (ShowWarningMessage msg) t.

Definition failureReported (t : list Event) : Prop :=
  exists msg, In (ShowErrorMessage msg) t.

(** The failure reports a cycle showed to the user, in order. *)
Fixpoint failureReports (t : list Event) : list string :=
  match t with
  | [] => []
  | ShowErrorMessage msg :: rest => msg :: failureReports rest
  | _ :: rest => failureReports rest
  end.

(** A cycle has started once its first subprocess, the status query,
    has been issued. *)
Definition cycleStarted (t : list Event) : Prop :=
  exists cwd rest, t = Exec cwd statusCmd :: rest.


(** The summary that closes the reporting stage. *)
Definition summaryReported (t : list Event) : Prop :=
  exists msg, In (ShowInformationMessage msg) t /\ JS.includes "Committed" msg = true.

(** The reporting stage ran to its end: one more commit counted, the
    summary shown, no failure shown. *)
Definition reportingCompleted (commitsBefore commitsAfter : nat)
           (t : list Event) : Prop :=
  commitsAfter = S commitsBefore /\ summaryReported t /\ ~ failureReported t.

(** Two cycles whose failure reports the user can tell apart. *)
Definition reportedDistinctly (t1 t2 : list Event) : Prop :=
  failureReports t1 <> failureReports t2.

(** [a] occurs in [t], and [b] occurs later. *)
Definition before (a b : Event) (t : list Event) : Prop :=
  exists t1 t2 t3, t = t1 ++ a :: t2 ++ b :: t3.

(** Boolean tests on events. *)
Definition isExec (cmd : string) (e : Event) : bool :=
  match e with
  | Exec _ c => String.eqb c cmd
  | _ => false
  end.

Definition isDraftingQuery (e : Event) : bool :=
  isExec stagedDiffCmd e || isExec stagedNamesCmd e.

(** The events of [t] that come before the first one satisfying [P]. *)
Fixpoint upTo (P : Event -> bool) (t : list Event) : list Event :=
  match t with
  | [] => []
  | e :: t' => if P e then [] else e :: upTo P t'
  end.

(** If the message generator queried the index at all, stage-all had
    been invoked before its first query. *)
Definition draftedAfterStaging (t : list Event) : Prop :=
  existsb isDraftingQuery t = true ->
  existsb (isExec stageAllCmd) (upTo isDraftingQuery t) = true.

(** The five ways an active-file change is turned down before the cycle
    (lines 48-57 and 229-236). *)
Definition rejected (h : Host) (file : string) (g : Globals) : Prop :=
  truthyOpt (lastSavedFile g) = false
  \/ isPaused (dateNow h) g = true
  \/ lastSavedFile g = Some file
  \/ getWorkspaceFolder h file = None
  \/ exists folder,
       getWorkspaceFolder h file = Some folder /\
       existsSync h (path_join h folder ".git") = false.

(** A change of active file that gets through all five. *)
Definition qualifies (h : Host) (file : string) (g : Globals) : Prop :=
  truthyOpt (lastSavedFile g) = true
  /\ isPaused (dateNow h) g = false
  /\ lastSavedFile g <> Some file
  /\ exists folder,
       getWorkspaceFolder h file = Some folder /\
       existsSync h (path_join h folder ".git") = true.

(** The queries of the message generator; neither touches the index. *)
Definition readOnlyQuery (cmd : string) : Prop :=
  cmd = stagedDiffCmd \/ cmd = stagedNamesCmd.

(** Effects the message generator of the AI-enabled revision may have. *)
Definition draftingEvent (cwd : string) (e : Event) : Prop :=
  match e with
  | Exec cwd' cmd => cwd' = cwd /\ readOnlyQuery cmd
  | ShowInformationMessage msg => msg = "Groq API key saved!"
  | AskSetup | AskKey | GroqRequest _ _ => True
  | _ => False
  end.

End Spec.

(* ================================================================== *)
(** ** Concrete hosts for running the handlers *)
(* ================================================================== *)

Module Sample.

(** A host whose git answers by command line alone, whose user answers
    the commit prompt by [reply], in the workspace [/repo]. *)
Definition host (git : string -> ExecResult)
           (reply : string -> option string) (push : bool)
           (completion : GroqReply) : Host :=
  {| dateNow := 1000%N;
     exec := fun _ cmd => git cmd;
     inputBox := fun _ value => reply value;
     cfgAutoCommit := true;
     cfgAutoPush := push;
     cfgFileExtensions := [".js"; ".ts"; ".jsx"; ".tsx"; ".css"; ".scss"; ".html"];
     getWorkspaceFolder := fun _ => Some "/repo";
     workspaceFolders := Some ["/repo"];
     existsSync := fun _ => true;
     path_join := fun a b => (a ++ "/" ++ b)%string;
     path_basename := JS.posix_basename;
     path_extname := JS.posix_extname;
     setupReplies := [];
     groq := fun _ _ => completion |}.

Definition accept (value : string) : option string := Some value.
Definition cancel (_ : string) : option string := None.
Definition clear (_ : string) : option string := Some EmptyString.

(** A repository with one modified file [a.ts]; the name listing of the
    index is [staged], the commit answers [commit], the push [push] and
    the diff against the previous commit [previous]. *)
Definition repo (staged : string) (commit push previous : ExecResult)
           (cmd : string) : ExecResult :=
  if String.eqb cmd Spec.statusCmd then ExecOk (" M a.ts" ++ String JS.LF EmptyString)
  else if String.eqb cmd Spec.conflictsCmd then ExecOk EmptyString
  else if String.eqb cmd Spec.stageAllCmd then ExecOk EmptyString
  else if String.eqb cmd Spec.stagedNamesCmd then ExecOk staged
  else if String.eqb cmd Spec.stagedDiffCmd then ExecOk "diff --git a/a.ts b/a.ts"
  else if Spec.isCommitCmd cmd then commit
  else if String.eqb cmd Spec.pushCmd then push
  else if String.eqb cmd Spec.previousCmd then previous
  else ExecFailed (plainError "unknown command").


Definition ok : ExecResult := ExecOk EmptyString.

(** What git answers to [HEAD~1] in a repository whose first commit has
    just been made. *)
Definition noPreviousCommitError : JsError :=
  plainError "Command failed: git diff --name-only HEAD~1".

Definition noPreviousCommit : ExecResult := ExecFailed noPreviousCommitError.

(** Node rejects with this error whatever the command was, once the
    child has written more than [maxBuffer] to standard error. *)
Definition overflowError : JsError :=
  {| errMessage := "stderr maxBuffer length exceeded";
     errString := "RangeError [ERR_CHILD_PROCESS_STDIO_MAXBUFFER]: "
                  ++ "stderr maxBuffer length exceeded" |}.

Definition overflow : ExecResult := ExecFailed overflowError.

Definition world (g : Globals) : AI.World :=
  {| AI.globals := g; AI.secretKey := None; AI.useAICommitMessages := false |}.

Definition keyed (g : Globals) : AI.World :=
  {| AI.globals := g;
     AI.secretKey := Some "gsk_0123456789abcdef0123456789abcdef";
     AI.useAICommitMessages := true |}.

Definition saved (f : string) : Globals := setLastSavedFile (Some f) initialGlobals.

Definition pausedAt (expiry : N) (g : Globals) : Globals :=
  setPausedUntil (Some expiry) g.

End Sample.

(* ================================================================== *)
(** ** The cycle as a state machine *)
(* ================================================================== *)

(** Every way a cycle can run, stage by stage, with how it ends, the
    state it leaves and the effects it has.  [ai_cycle_runs] and
    [basic_cycle_runs] below show that [autoCommitAndPush] always follows
    one of them. *)

Module Cycle.
Import Spec.

Section Stages.
Variable h : Host.
Variable wp : string.

(** Probing: the status query answered, with pending changes ... *)
Definition pending : Prop :=
  exists out, exec h wp statusCmd = ExecOk out /\ JS.truthy (JS.trim out) = true.

(** ... and the conflict listing answered, with nothing listed. *)
Definition probed : Prop :=
  pending /\
  exists out, exec h wp conflictsCmd = ExecOk out /\ JS.truthy (JS.trim out) = false.

Definition stageAllOk : Prop := exists out, exec h wp stageAllCmd = ExecOk out.

(** Pushing: switched off, or done. *)
Definition pushed : Prop :=
  cfgAutoPush h = false \/ exists out, exec h wp pushCmd = ExecOk out.

Definition pushEvents : list Event :=
  if cfgAutoPush h then [Exec wp pushCmd] else [].
End Stages.

(** *** AI-enabled revision *)
Section AIRuns.
Variable h : Host.
Variable wp : string.
Variable w : AI.World.

(** The one failure report of the cycle (line 282). *)
Definition aiFailure (e : JsError) : string := "Commit failed: " ++ errMessage e.

Definition aiFailed (e : JsError) : Event := ShowErrorMessage (aiFailure e).

Definition aiPrompt : string := "Edit commit message or press Enter".

Definition aiCommitCmd (userMessage : string) : string :=
  "git commit -m "
  ++ quoted (JS.escapeQuotes
               (if JS.truthy userMessage then userMessage else "chore: update")).

Definition aiSummary (w' : AI.World) : Event :=
  ShowInformationMessage
    ("Committed" ++ (if cfgAutoPush h then " & pushed" else "")
     ++ "! Today: " ++ JS.ofNat (sessionCommits (AI.globals w'))
     ++ " commits, " ++ JS.ofNat (sessionFilesCommitted (AI.globals w'))
     ++ " files").

(** Staging and drafting done: message [msg], state [w1], effects [t]. *)
Definition aiDrafted (msg : string) (w1 : AI.World) (t : list Event) : Prop :=
  probed h wp /\ stageAllOk h wp /\
  AI.generateCommitMessage h wp w = (Done msg, w1, t).

(** Staging done and drafting begun, but the generator never returns:
    state [w1] and effects [t] so far. *)
Definition aiStalled (w1 : AI.World) (t : list Event) : Prop :=
  probed h wp /\ stageAllOk h wp /\
  AI.generateCommitMessage h wp w = (Pending, w1, t).

(** Effects of a cycle that reaches the confirmation prompt: [t] while
    drafting, [rest] after the prompt. *)
Definition aiTrace (msg : string) (t rest : list Event) : list Event :=
  [Exec wp statusCmd; Exec wp conflictsCmd; Exec wp stageAllCmd]
  ++ t ++ ShowInputBox aiPrompt msg :: rest.

Inductive AIRun : Outcome unit -> AI.World -> list Event -> Prop :=
  | ai_status_failed e :
      exec h wp statusCmd = ExecFailed e ->
      AIRun (Done tt) w [Exec wp statusCmd; aiFailed e]
  | ai_nothing_pending out :
      exec h wp statusCmd = ExecOk out -> JS.truthy (JS.trim out) = false ->
      AIRun (Done tt) w [Exec wp statusCmd]
  | ai_conflicts_failed e :
      pending h wp -> exec h wp conflictsCmd = ExecFailed e ->
      AIRun (Done tt) w [Exec wp statusCmd; Exec wp conflictsCmd; aiFailed e]
  | ai_conflicted out :
      pending h wp ->
      exec h wp conflictsCmd = ExecOk out -> JS.truthy (JS.trim out) = true ->
      AIRun (Done tt) w
            [Exec wp statusCmd; Exec wp conflictsCmd;
             ShowWarningMessage "Chronicle: Merge conflicts. Skipped."]
  | ai_stage_failed e :
      probed h wp -> exec h wp stageAllCmd = ExecFailed e ->
      AIRun (Done tt) w
            [Exec wp statusCmd; Exec wp conflictsCmd; Exec wp stageAllCmd;
             aiFailed e]
  | ai_canceled msg w1 t :
      aiDrafted msg w1 t -> inputBox h aiPrompt msg = None ->
      AIRun (Done tt) w1 (aiTrace msg t [ShowInformationMessage "Commit canceled."])
  | ai_commit_failed msg w1 t um e :
      aiDrafted msg w1 t -> inputBox h aiPrompt msg = Some um ->
      exec h wp (aiCommitCmd um) = ExecFailed e ->
      AIRun (Done tt) w1 (aiTrace msg t [Exec wp (aiCommitCmd um); aiFailed e])
  | ai_push_failed msg w1 t um out e :
      aiDrafted msg w1 t -> inputBox h aiPrompt msg = Some um ->
      exec h wp (aiCommitCmd um) = ExecOk out ->
      cfgAutoPush h = true -> exec h wp pushCmd = ExecFailed e ->
      AIRun (Done tt) w1
            (aiTrace msg t
               [Exec wp (aiCommitCmd um); Exec wp pushCmd; aiFailed e])
  | ai_previous_failed msg w1 t um out e :
      aiDrafted msg w1 t -> inputBox h aiPrompt msg = Some um ->
      exec h wp (aiCommitCmd um) = ExecOk out -> pushed h wp ->
      exec h wp previousCmd = ExecFailed e ->
      AIRun (Done tt) (AI.onGlobals incrSessionCommits w1)
            (aiTrace msg t
               ([Exec wp (aiCommitCmd um)] ++ pushEvents h wp
                ++ [Exec wp previousCmd; aiFailed e]))
  | ai_reported msg w1 t um out files :
      aiDrafted msg w1 t -> inputBox h aiPrompt msg = Some um ->
      exec h wp (aiCommitCmd um) = ExecOk out -> pushed h wp ->
      exec h wp previousCmd = ExecOk files ->
      let w2 := AI.onGlobals (addSessionFiles (List.length (JS.lines files)))
                             (AI.onGlobals incrSessionCommits w1) in
      AIRun (Done tt) w2
            (aiTrace msg t
               ([Exec wp (aiCommitCmd um)] ++ pushEvents h wp
                ++ [Exec wp previousCmd; aiSummary w2]))
  | ai_stalled w1 t :
      aiStalled w1 t ->
      AIRun Pending w1
            ([Exec wp statusCmd; Exec wp conflictsCmd; Exec wp stageAllCmd] ++ t).
End AIRuns.

(** *** Basic revision *)
Section BasicRuns.
Variable h : Host.
Variable wp : string.
Variable g : Globals.

(** The one failure report of the cycle (line 105). *)
Definition basicFailure (e : JsError) : string :=
  Basic.label ("Commit failed - " ++ Basic.errToString e).

Definition basicFailed (e : JsError) : Event := ShowErrorMessage (basicFailure e).

Definition basicPrompt : string := Basic.label "Commit message".

Definition basicCommitCmd (userMessage : string) : string :=
  "git commit -m " ++ quoted userMessage.

Definition basicSummary (g' : Globals) : Event :=
  ShowInformationMessage
    (Basic.label ("Committed & pushed! Commits today: "
                  ++ JS.ofNat (sessionCommits g') ++ ", Files: "
                  ++ JS.ofNat (sessionFilesCommitted g'))).

(** Drafting done, before anything is staged. *)
Definition basicDrafted (msg : string) : Prop :=
  probed h wp /\
  Basic.generateCommitMessage h wp g = (Done msg, g, [Exec wp stagedNamesCmd]).

Definition basicUpToPrompt (msg : string) : list Event :=
  [Exec wp statusCmd; Exec wp conflictsCmd; Exec wp stagedNamesCmd;
   ShowInputBox basicPrompt msg].

Inductive BasicRun : Globals -> list Event -> Prop :=
  | basic_status_failed e :
      exec h wp statusCmd = ExecFailed e ->
      BasicRun g [Exec wp statusCmd; basicFailed e]
  | basic_nothing_pending out :
      exec h wp statusCmd = ExecOk out -> JS.truthy (JS.trim out) = false ->
      BasicRun g [Exec wp statusCmd]
  | basic_conflicts_failed e :
      pending h wp -> exec h wp conflictsCmd = ExecFailed e ->
      BasicRun g [Exec wp statusCmd; Exec wp conflictsCmd; basicFailed e]
  | basic_conflicted out :
      pending h wp ->
      exec h wp conflictsCmd = ExecOk out -> JS.truthy (JS.trim out) = true ->
      BasicRun g [Exec wp statusCmd; Exec wp conflictsCmd;
                  ShowWarningMessage
                    (Basic.label "Merge conflicts detected. Auto-commit skipped.")]
  | basic_canceled msg :
      basicDrafted msg -> inputBox h basicPrompt msg = None ->
      BasicRun g (basicUpToPrompt msg
                  ++ [ShowInformationMessage (Basic.label "Commit canceled.")])
  | basic_stage_failed msg um e :
      basicDrafted msg -> inputBox h basicPrompt msg = Some um ->
      exec h wp stageAllCmd = ExecFailed e ->
      BasicRun g (basicUpToPrompt msg ++ [Exec wp stageAllCmd; basicFailed e])
  | basic_commit_failed msg um e :
      basicDrafted msg -> inputBox h basicPrompt msg = Some um ->
      stageAllOk h wp -> exec h wp (basicCommitCmd um) = ExecFailed e ->
      BasicRun g (basicUpToPrompt msg
                  ++ [Exec wp stageAllCmd; Exec wp (basicCommitCmd um); basicFailed e])
  | basic_push_failed msg um out e :
      basicDrafted msg -> inputBox h basicPrompt msg = Some um ->
      stageAllOk h wp -> exec h wp (basicCommitCmd um) = ExecOk out ->
      cfgAutoPush h = true -> exec h wp pushCmd = ExecFailed e ->
      BasicRun g (basicUpToPrompt msg
                  ++ [Exec wp stageAllCmd; Exec wp (basicCommitCmd um);
                      Exec wp pushCmd; basicFailed e])
  | basic_previous_failed msg um out e :
      basicDrafted msg -> inputBox h basicPrompt msg = Some um ->
      stageAllOk h wp -> exec h wp (basicCommitCmd um) = ExecOk out ->
      pushed h wp -> exec h wp previousCmd = ExecFailed e ->
      BasicRun (incrSessionCommits g)
               (basicUpToPrompt msg
                ++ [Exec wp stageAllCmd; Exec wp (basicCommitCmd um)]
                ++ pushEvents h wp ++ [Exec wp previousCmd; basicFailed e])
  | basic_reported msg um out files :
      basicDrafted msg -> inputBox h basicPrompt msg = Some um ->
      stageAllOk h wp -> exec h wp (basicCommitCmd um) = ExecOk out ->
      pushed h wp -> exec h wp previousCmd = ExecOk files ->
      let g2 := addSessionFiles (List.length (JS.lines files)) (incrSessionCommits g) in
      BasicRun g2
               (basicUpToPrompt msg
                ++ [Exec wp stageAllCmd; Exec wp (basicCommitCmd um)]
                ++ pushEvents h wp ++ [Exec wp previousCmd; basicSummary g2]).
End BasicRuns.

End Cycle.

(* ================================================================== *)
(** ** Further vocabulary *)
(* ================================================================== *)

Module Terms.
Import Spec.

(** A save the extension keeps track of (lines 37-41, 219-223). *)
Definition tracked (h : Host) (document : Editor) : bool :=
  cfgAutoCommit h
  && existsb (String.eqb (path_extname h (fileName document))) (cfgFileExtensions h).

(** Every double quote of [s] comes right after a backslash; [escaped]
    tells whether the character before [s] is one. *)
Fixpoint quotesEscaped (escaped : bool) (s : string) : bool :=
  match s with
  | EmptyString => true
  | String c s' =>
      (if Ascii.eqb c JS.DQUOTE then escaped else true)
      && quotesEscaped (Ascii.eqb c "\") s'
  end.

(** Number of double quotes of [s]. *)
Fixpoint countQuotes (s : string) : nat :=
  match s with
  | EmptyString => 0
  | String c s' => (if Ascii.eqb c JS.DQUOTE then 1 else 0) + countQuotes s'
  end.

(** A request to the completion service as the extension sends it: under
    a key that is not empty, for a prompt built from the first 1500
    characters of a staged diff that is not blank. *)
Definition wellFormedRequest (h : Host) (cwd : string) (e : Event) : Prop :=
  match e with
  | GroqRequest apiKey prompt =>
      apiKey <> EmptyString /\
      exists diff,
        exec h cwd stagedDiffCmd = ExecOk diff /\
        JS.trim diff <> EmptyString /\
        prompt = AI.promptFor (JS.slice0 1500 diff) /\
        String.length (JS.slice0 1500 diff) <= 1500
  | _ => True
  end.

(** A commit command that ran and succeeded. *)
Definition committed (h : Host) (cwd : string) (t : list Event) : Prop :=
  exists cmd out,
    isCommitCmd cmd = true /\ In (Exec cwd cmd) t /\ exec h cwd cmd = ExecOk out.

(** Number of requests to the completion service in a trace. *)
Fixpoint countRequests (t : list Event) : nat :=
  match t with
  | [] => 0
  | GroqRequest _ _ :: rest => S (countRequests rest)
  | _ :: rest => countRequests rest
  end.

(** The requests of a trace are well formed, and one at most. *)
Definition boundedRequests (h : Host) (cwd : string) (t : list Event) : Prop :=
  Forall (wellFormedRequest h cwd) t /\ countRequests t <= 1.



End Terms.

(* ================================================================== *)
(** * Properties *)
(* ================================================================== *)

Unset Implicit Arguments.

(** ** Runs of the string primitives *)

Example trim_run : JS.trim ("  a b" ++ String JS.LF " ") = "a b".
Proof. reflexivity. Qed.

Example lines_run :
  JS.lines ("a.ts" ++ String JS.LF ("src/b.ts" ++ String JS.LF ""))
  = ["a.ts"; "src/b.ts"].
Proof. reflexivity. Qed.

Example lines_of_nothing : JS.lines "" = [].
Proof. reflexivity. Qed.

Example split_keeps_empty_tail : JS.split JS.LF ("a" ++ String JS.LF "") = ["a"; ""].
Proof. reflexivity. Qed.

Example basename_run :
  JS.posix_basename "src/app.ts" = "app.ts" /\ JS.posix_basename "src/dir//" = "dir".
Proof. split; reflexivity. Qed.

Example extname_run :
  JS.posix_extname "a/b.c/d" = "" /\ JS.posix_extname "x/.bashrc" = "" /\
  JS.posix_extname "a.tar.gz" = ".gz".
Proof. repeat split; reflexivity. Qed.

Example ofNat_run : JS.ofNat 0 = "0" /\ JS.ofNat 12 = "12".
Proof. split; reflexivity. Qed.

Example toLowerCase_run : JS.toLowerCase "FeAt(x): Y" = "feat(x): y".
Proof. reflexivity. Qed.

Example escapeQuotes_run :
  JS.escapeQuotes (String JS.DQUOTE "a") = String "\" (String JS.DQUOTE "a").
Proof. reflexivity. Qed.

(** ** Facts about strings *)

Section StringFacts.

Lemma length_append (a b : string) :
  String.length (a ++ b) = String.length a + String.length b.
Proof. induction a as [|c a IH]; simpl; [reflexivity | now rewrite IH]. Qed.

Lemma length_slice0 (n : nat) (s : string) : String.length (JS.slice0 n s) <= n.
Proof.
  unfold JS.slice0. revert s.
  induction n as [|n IH]; intros [|c s]; simpl; try lia.
  specialize (IH s). lia.
Qed.



Lemma append_inj_l (p a b : string) : (p ++ a = p ++ b)%string -> a = b.
Proof. induction p as [|c p IH]; simpl; intros H; [assumption|]. injection H. exact IH. Qed.








End StringFacts.

(** ** Name listings parse back to the listed paths *)

Section Listings.





End Listings.

(** ** The AI commit client *)

Section Client.

Lemma postProcess_empty_content :
  AI.postProcess None = "chore: update" /\ AI.postProcess (Some "") = "chore: update".
Proof. split; reflexivity. Qed.

(** Whatever the service answers, the resolved message fits in 72
    characters. *)
Lemma postProcess_length (content : option string) :
  String.length (AI.postProcess content) <= 72.
Proof.
  unfold AI.postProcess.
  set (text := hd "" (JS.split JS.LF _)).
  destruct (negb (JS.truthy text)); [simpl; lia|].
  set (typed := if negb _ then _ else text).
  destruct (72 <? String.length typed) eqn:E.
  - rewrite length_append. pose proof (length_slice0 69 typed). simpl. lia.
  - apply Nat.ltb_ge in E. exact E.
Qed.

(** The resolved message is the literal default, or the first line of
    the reply, possibly behind [chore: ], cut to 69 characters and an
    ellipsis marker when it exceeds 72. *)
Lemma postProcess_shape (content : option string) :
  let text := hd "" (JS.split JS.LF
                       (match content with Some c => JS.trim c | None => "" end)) in
  (text = "" /\ AI.postProcess content = "chore: update") \/
  exists typed,
    (typed = text \/ typed = ("chore: " ++ text)%string) /\
    ((String.length typed <= 72 /\ AI.postProcess content = typed) \/
     (72 < String.length typed /\
      AI.postProcess content = (JS.slice0 69 typed ++ "...")%string)).
Proof.
  intros text. unfold AI.postProcess. fold text.
  destruct text as [|c text'] eqn:T; [left; split; reflexivity|].
  right. cbn [JS.truthy negb]. rewrite <- T.
  set (typed := if negb _ then _ else text).
  exists typed. split.
  - subst typed. destruct (negb _); auto.
  - destruct (72 <? String.length typed) eqn:E.
    + right. apply Nat.ltb_lt in E. auto.
    + left. apply Nat.ltb_ge in E. auto.
Qed.

Lemma callGroqAPI_length (h : Host) (apiKey diff : string) (w : AI.World) :
  match result (AI.callGroqAPI h apiKey diff w) with
  | Done (Some msg) => String.length msg <= 72
  | Done None => True
  | Thrown _ => False
  | Pending => True
  end.
Proof.
  unfold AI.callGroqAPI, bind, emit, ret, never, result.
  destruct (groq h apiKey (AI.promptFor diff)) as [| |status [|content]|];
    simpl; try exact I.
  all: destruct (negb (status =? 200)); simpl; try exact I.
  apply postProcess_length.
Qed.

End Client.

(** ** What the client does guarantee *)

Section Typed.

Lemma toLowerCase_append (a b : string) :
  JS.toLowerCase (a ++ b) = (JS.toLowerCase a ++ JS.toLowerCase b)%string.
Proof. induction a as [|c a IH]; cbn [append JS.toLowerCase]; [reflexivity | now rewrite IH]. Qed.

Lemma toLowerCase_slice0 (n : nat) (s : string) :
  JS.toLowerCase (JS.slice0 n s) = JS.slice0 n (JS.toLowerCase s).
Proof.
  unfold JS.slice0. revert s.
  induction n as [|n IH]; intros [|c s]; cbn [substring JS.toLowerCase]; try reflexivity.
  now rewrite IH.
Qed.

(** A prefix survives a cut that is no shorter than it. *)
Lemma prefix_slice0 (p s r : string) (n : nat) :
  prefix p s = true -> String.length p <= n ->
  prefix p (JS.slice0 n s ++ r) = true.
Proof.
  unfold JS.slice0. revert s n.
  induction p as [|a p IH]; intros s n H L.
  - destruct (substring 0 n s ++ r)%string; reflexivity.
  - destruct s as [|b s]; [discriminate H|].
    destruct n as [|n]; [cbn in L; lia|].
    cbn [substring append prefix] in *.
    destruct (ascii_dec a b); [|discriminate H].
    apply IH; [exact H | cbn in L; lia].
Qed.

Lemma type_marker_short (t : string) (c : string) :
  In t AI.types -> String.length c = 1 -> String.length (t ++ c) <= 69.
Proof.
  intros I L. rewrite length_append, L.
  cbv [AI.types] in I. cbn [In] in I.
  repeat (destruct I as [I|I]; [subst t; cbn; lia|]). destruct I.
Qed.

Lemma hasTypePrefix_cut (s : string) :
  Spec.hasTypePrefix s = true -> Spec.hasTypePrefix (JS.slice0 69 s ++ "...") = true.
Proof.
  unfold Spec.hasTypePrefix. rewrite !existsb_exists.
  intros (t & I & H). exists t. split; [exact I|].
  rewrite toLowerCase_append, toLowerCase_slice0.
  unfold JS.startsWith in *.
  apply orb_true_iff in H. apply orb_true_iff.
  destruct H as [H|H]; [left|right];
    (apply prefix_slice0; [exact H | now apply type_marker_short]).
Qed.

Lemma hasTypePrefix_chore (s : string) : Spec.hasTypePrefix ("chore: " ++ s) = true.
Proof. unfold Spec.hasTypePrefix. rewrite toLowerCase_append. reflexivity. Qed.

(** The message the client resolves to is acceptable whenever the first
    line of the reply holds no [type(] away from its start. *)
Lemma postProcess_acceptable (content : option string) :
  let text := hd "" (JS.split JS.LF
                       (match content with Some c => JS.trim c | None => "" end)) in
  (forall t, In t AI.types -> JS.includes (t ++ "(") text = true ->
             JS.startsWith (t ++ "(") (JS.toLowerCase text) = true) ->
  Spec.acceptable (Some (AI.postProcess content)).
Proof.
  intros text H. split; [apply postProcess_length|].
  unfold AI.postProcess. fold text.
  destruct (negb (JS.truthy text)); [reflexivity|].
  set (hasType := existsb _ AI.types).
  assert (T : Spec.hasTypePrefix
                (if negb hasType then ("chore: " ++ text)%string else text)
              = true).
  { destruct hasType eqn:E; cbn [negb]; [|apply hasTypePrefix_chore].
    subst hasType. apply existsb_exists in E. destruct E as (t & I & E).
    unfold Spec.hasTypePrefix. apply existsb_exists. exists t. split; [exact I|].
    apply orb_true_iff in E. apply orb_true_iff.
    destruct E as [E|E]; [left; exact E | right; now apply H]. }
  destruct (72 <? _); [now apply hasTypePrefix_cut | exact T].
Qed.

End Typed.

(** C1 (the code departs from it): a successful reply whose first line
    merely contains [test(] is resolved unchanged, so the client returns
    the message [add test(s) for login guard], which begins with no
    conventional-commit type.  The test of line 328 looks for [type(]
    anywhere in the text, and case-sensitively, where it looks for [type:]
    at the start of the lower-cased text. *)
Theorem callGroqAPI_keeps_untyped_reply :
  let reply := GroqResponse 200 (BodyContent (Some "add test(s) for login guard")) in
  let h := Sample.host (Sample.repo "" Sample.ok Sample.ok Sample.ok)
                       Sample.accept true reply in
  result (AI.callGroqAPI h "gsk_key" "diff --git a/a.ts b/a.ts"
            (Sample.keyed initialGlobals))
  = Done (Some "add test(s) for login guard")
  /\ Spec.hasTypePrefix "add test(s) for login guard" = false
  /\ ~ Spec.acceptable (Some "add test(s) for login guard").
Proof.
  cbv zeta. split; [reflexivity|]. split; [reflexivity|].
  intros [_ H]. vm_compute in H. discriminate.
Qed.

(** ** The rule-based fallback of the message generator *)

Section Fallback.
Variable h : Host.
Variable wp : string.

Local Ltac run_fallback :=
  unfold AI.ruleBasedMessage, tryCatch, bind, execAsync, ret, result.

Lemma ruleBasedMessage_on_listing (w : AI.World) (out : string) :
  exec h wp Spec.stagedNamesCmd = ExecOk out ->
  AI.ruleBasedMessage h wp w
  = (Done (Spec.fallbackRule (path_basename h) (JS.lines out)), w,
     [Exec wp Spec.stagedNamesCmd]).
Proof.
  intros E. run_fallback. fold Spec.stagedNamesCmd. rewrite E.
  destruct (JS.lines out) as [|a [|b rest]]; reflexivity.
Qed.

Lemma ruleBasedMessage_on_failure (w : AI.World) (e : JsError) :
  exec h wp Spec.stagedNamesCmd = ExecFailed e ->
  AI.ruleBasedMessage h wp w
  = (Done "chore: update", w, [Exec wp Spec.stagedNamesCmd]).
Proof.
  intros E. run_fallback. fold Spec.stagedNamesCmd. now rewrite E.
Qed.

Lemma fallbackRule_usable (basename : string -> string) (staged : list string) :
  JS.startsWith "chore: update" (Spec.fallbackRule basename staged) = true.
Proof. destruct staged as [|a [|b rest]]; reflexivity. Qed.

(** With AI generation switched off the generator is its fallback. *)
Lemma generateCommitMessage_without_AI (w : AI.World) :
  AI.useAICommitMessages w = false ->
  AI.generateCommitMessage h wp w = AI.ruleBasedMessage h wp w.
Proof.
  intros E. unfold AI.generateCommitMessage, bind, get, ret. rewrite E.
  cbn [truthyOpt]. destruct (AI.ruleBasedMessage h wp w) as [[r w'] t].
  reflexivity.
Qed.

End Fallback.




Example fallback_sizes :
  Spec.fallbackRule JS.posix_basename [] = "chore: update" /\
  Spec.fallbackRule JS.posix_basename ["src/app.ts"] = "chore: update app.ts" /\
  Spec.fallbackRule JS.posix_basename ["a"; "b"; "c"] = "chore: update 3 files".
Proof. repeat split; reflexivity. Qed.

(** ** The message generator of the AI-enabled revision *)

Section Drafting.
Variable h : Host.
Variable wp : string.

(** The request either resolves or, when the response is cut short,
    never settles; it never rejects. *)
Lemma callGroqAPI_ends (apiKey diff : string) (w : AI.World) :
  exists o, AI.callGroqAPI h apiKey diff w
            = (o, w, [GroqRequest apiKey (AI.promptFor diff)])
            /\ ((exists r, o = Done r)
                \/ (o = Pending
                    /\ groq h apiKey (AI.promptFor diff) = GroqCutShort)).
Proof.
  unfold AI.callGroqAPI, bind, emit, ret, never.
  destruct (groq h apiKey (AI.promptFor diff)) as [| |status [|content]|];
    try (destruct (negb (status =? 200)));
    eexists; (split; [reflexivity|]);
    first [left; eexists; reflexivity | right; split; reflexivity].
Qed.

Lemma setGroqAPIKey_returns (reply : option string) (w : AI.World) :
  exists w' t, AI.setGroqAPIKey reply w = (Done tt, w', t)
               /\ AI.globals w' = AI.globals w
               /\ AI.useAICommitMessages w' = AI.useAICommitMessages w
               /\ Forall (Spec.draftingEvent wp) t.
Proof.
  unfold AI.setGroqAPIKey, bind, emit, ret, modify.
  destruct (AI.keyBoxResult reply) as [k|]; [destruct (JS.truthy k)|];
    do 2 eexists; (split; [reflexivity|]); cbn; repeat split; repeat constructor.
Qed.

Lemma askService_ends (apiKey : string) (w : AI.World) :
  exists o t,
    tryCatch
      (bind (execAsync h wp "git diff --cached")
         (fun diff =>
            if negb (JS.truthy (JS.trim diff)) then ret None
            else AI.callGroqAPI h apiKey (JS.slice0 1500 diff)))
      (fun _ => ret None) w
    = (o, w, t) /\ ends o /\ Forall (Spec.draftingEvent wp) t.
Proof.
  unfold tryCatch, bind, execAsync, ret.
  destruct (exec h wp "git diff --cached") as [diff|e].
  - destruct (negb (JS.truthy (JS.trim diff))).
    + do 2 eexists. split; [reflexivity|].
      split; [left; eexists; reflexivity | repeat constructor].
    + destruct (callGroqAPI_ends apiKey (JS.slice0 1500 diff) w)
        as (o & -> & [[r ->] | [-> _]]);
        do 2 eexists; (split; [reflexivity|]);
        (split; [first [left; eexists; reflexivity | right; reflexivity]
                | repeat constructor]).
  - do 2 eexists. split; [reflexivity|].
    split; [left; eexists; reflexivity | repeat constructor].
Qed.

Lemma generateAICommitMessage_ends (replies : list SetupReply) (w : AI.World) :
  exists o w' t, AI.generateAICommitMessage h wp replies w = (o, w', t)
                 /\ ends o
                 /\ AI.globals w' = AI.globals w
                 /\ Forall (Spec.draftingEvent wp) t.
Proof.
  assert (Service : forall w : AI.World,
             exists o w' t,
               tryCatch
                 (bind (execAsync h wp "git diff --cached")
                    (fun diff =>
                       if negb (JS.truthy (JS.trim diff)) then ret None
                       else AI.callGroqAPI h
                              (match AI.secretKey w with Some k => k | None => "" end)
                              (JS.slice0 1500 diff)))
                 (fun _ => ret None) w = (o, w', t)
               /\ ends o /\ AI.globals w' = AI.globals w
               /\ Forall (Spec.draftingEvent wp) t).
  { intros w0.
    destruct (askService_ends
                (match AI.secretKey w0 with Some k => k | None => "" end) w0)
      as (o & t & E & O & F).
    exists o, w0, t. repeat split; assumption. }
  assert (Stop : forall (w : AI.World) (t : list Event),
             Forall (Spec.draftingEvent wp) t ->
             exists o w' t', (@Done (option string) None, w, t) = (o, w', t')
               /\ ends o /\ AI.globals w' = AI.globals w
               /\ Forall (Spec.draftingEvent wp) t').
  { intros w0 t F. do 3 eexists. split; [reflexivity|].
    split; [left; eexists; reflexivity|]. split; [reflexivity | exact F]. }
  revert w. induction replies as [|reply replies IH]; intros w.
  - cbn [AI.generateAICommitMessage]. unfold bind at 1. unfold get.
    destruct (negb (truthyOpt (AI.secretKey w))).
    + apply Stop. repeat constructor.
    + cbn [app]. destruct (Service w) as (o & w' & t & -> & R).
      do 3 eexists. split; [reflexivity | exact R].
  - cbn [AI.generateAICommitMessage]. unfold bind at 1. unfold get.
    destruct (negb (truthyOpt (AI.secretKey w))).
    + destruct reply as [key| | |].
      * unfold bind at 1. unfold emit. unfold bind at 1.
        destruct (setGroqAPIKey_returns key w) as (w1 & t1 & E1 & G1 & _ & F1).
        rewrite E1.
        destruct (IH w1) as (o & w2 & t2 & E2 & O2 & G2 & F2). rewrite E2.
        do 3 eexists. split; [reflexivity|]. split; [exact O2|].
        split; [congruence|].
        cbn [app]. constructor; [exact I|]. apply Forall_app; split; assumption.
      * do 3 eexists. split; [reflexivity|].
        split; [left; eexists; reflexivity|]. split; [reflexivity|]. repeat constructor.
      * do 3 eexists. split; [reflexivity|].
        split; [left; eexists; reflexivity|]. split; [reflexivity|]. repeat constructor.
      * do 3 eexists. split; [reflexivity|].
        split; [left; eexists; reflexivity|]. split; [reflexivity|]. repeat constructor.
    + cbn [app]. destruct (Service w) as (o & w' & t & -> & R).
      do 3 eexists. split; [reflexivity | exact R].
Qed.

Lemma ruleBasedMessage_returns (w : AI.World) :
  exists msg, AI.ruleBasedMessage h wp w = (Done msg, w, [Exec wp Spec.stagedNamesCmd]).
Proof.
  destruct (exec h wp Spec.stagedNamesCmd) as [out|e] eqn:E.
  - eexists. apply ruleBasedMessage_on_listing. exact E.
  - eexists. exact (ruleBasedMessage_on_failure h wp w e E).
Qed.

(** The message generator returns a message unless the completion never
    comes; either way it leaves the module-level variables alone and
    only queries the index. *)
Lemma generateCommitMessage_ends (w : AI.World) :
  exists o w' t, AI.generateCommitMessage h wp w = (o, w', t)
                 /\ ends o
                 /\ AI.globals w' = AI.globals w
                 /\ Forall (Spec.draftingEvent wp) t.
Proof.
  unfold AI.generateCommitMessage. unfold bind at 1. unfold get. unfold bind at 1.
  assert (A : exists o w1 t1,
             (if AI.useAICommitMessages w
              then AI.generateAICommitMessage h wp (setupReplies h)
              else ret None) w = (o, w1, t1)
             /\ ends o
             /\ AI.globals w1 = AI.globals w
             /\ Forall (Spec.draftingEvent wp) t1).
  { destruct (AI.useAICommitMessages w).
    - apply generateAICommitMessage_ends.
    - do 3 eexists. split; [reflexivity|].
      split; [left; eexists; reflexivity|]. split; [reflexivity|]. constructor. }
  destruct A as (o & w1 & t1 & E1 & [[ai ->] | ->] & G1 & F1); rewrite E1.
  - destruct (truthyOpt ai).
    + do 3 eexists. split; [reflexivity|].
      split; [left; eexists; reflexivity|]. split; [exact G1|].
      cbn [app]. rewrite app_nil_r. exact F1.
    + destruct (ruleBasedMessage_returns w1) as [msg E2]. rewrite E2.
      do 3 eexists. split; [reflexivity|].
      split; [left; eexists; reflexivity|]. split; [exact G1|].
      cbn [app]. apply Forall_app; split; [exact F1|].
      constructor; [split; [reflexivity | right; reflexivity] | constructor].
  - do 3 eexists. split; [reflexivity|].
    split; [right; reflexivity|]. split; [exact G1 | cbn [app]; exact F1].
Qed.
End Drafting.

(** ** Every cycle follows the state machine *)

Section Runs.
Variable h : Host.
Variable wp : string.
Import Spec Cycle.

Lemma basic_generateCommitMessage_returns (g : Globals) :
  exists msg, Basic.generateCommitMessage h wp g = (Done msg, g, [Exec wp stagedNamesCmd]).
Proof.
  unfold Basic.generateCommitMessage, tryCatch, bind, execAsync, ret.
  fold stagedNamesCmd.
  destruct (exec h wp stagedNamesCmd) as [out|e]; [|eexists; reflexivity].
  destruct (List.length (JS.lines out) =? 0); [eexists; reflexivity|].
  repeat match goal with
         | |- context [if ?b then _ else _] => destruct b
         end; eexists; reflexivity.
Qed.

Local Opaque AI.generateCommitMessage Basic.generateCommitMessage.

(** Closes a goal [Run ... t] with a constructor instance [R], up to
    the bracketing of the trace. *)
Local Ltac close_run R :=
  let H := fresh "R" in
  pose proof R as H;
  unfold aiTrace, basicUpToPrompt, pushEvents, aiSummary, basicSummary in H;
  repeat match type of H with
         | context [cfgAutoPush ?h] =>
             match goal with E : cfgAutoPush h = _ |- _ => rewrite E in H end
         end;
  cbn [app] in H |- *; rewrite <- ?app_assoc; cbn [app]; exact H.

Lemma ai_cycle_runs (w : AI.World) :
  exists o w' t, AI.autoCommitAndPush h wp w = (o, w', t) /\ AIRun h wp w o w' t.
Proof.
  unfold AI.autoCommitAndPush, tryCatch.
  unfold bind at 1. unfold execAsync at 1. fold statusCmd.
  destruct (exec h wp statusCmd) as [out|e] eqn:Es.
  2:{ do 3 eexists. split; [reflexivity|]. close_run (ai_status_failed h wp w Es). }
  destruct (JS.truthy (JS.trim out)) eqn:Ts; cbn [negb].
  2:{ do 3 eexists. split; [reflexivity|]. close_run (ai_nothing_pending h wp w Es Ts). }
  assert (P : pending h wp) by (exists out; auto).
  unfold bind at 1. unfold execAsync at 1. fold conflictsCmd.
  destruct (exec h wp conflictsCmd) as [cf|e] eqn:Ec.
  2:{ do 3 eexists. split; [reflexivity|]. close_run (ai_conflicts_failed w P Ec). }
  destruct (JS.truthy (JS.trim cf)) eqn:Tc.
  { do 3 eexists. split; [reflexivity|]. close_run (ai_conflicted w P Ec Tc). }
  assert (Q : probed h wp) by (split; [exact P | exists cf; auto]).
  unfold bind at 1. unfold execAsync at 1. fold stageAllCmd.
  destruct (exec h wp stageAllCmd) as [ad|e] eqn:Ea.
  2:{ do 3 eexists. split; [reflexivity|]. close_run (ai_stage_failed w Q Ea). }
  assert (A : stageAllOk h wp) by (exists ad; auto).
  unfold bind at 1.
  destruct (generateCommitMessage_ends h wp w)
    as (o & w1 & t & Eg & [[msg ->] | ->] & _ & _); rewrite Eg.
  2:{ do 3 eexists. split; [reflexivity|].
      apply ai_stalled. split; [exact Q | split; [exact A | exact Eg]]. }
  assert (D : aiDrafted h wp w msg w1 t) by (split; [exact Q | split; [exact A | exact Eg]]).
  unfold bind at 1. unfold showInputBox. fold aiPrompt.
  destruct (inputBox h aiPrompt msg) as [um|] eqn:Eb.
  2:{ do 3 eexists. split; [reflexivity|]. close_run (ai_canceled D Eb). }
  unfold bind at 1. unfold execAsync at 1. fold (aiCommitCmd um).
  destruct (exec h wp (aiCommitCmd um)) as [co|e] eqn:Eo.
  2:{ do 3 eexists. split; [reflexivity|]. close_run (ai_commit_failed D Eb Eo). }
  unfold bind at 1. fold pushCmd.
  destruct (cfgAutoPush h) eqn:Ep.
  - unfold bind at 1. unfold execAsync at 1.
    destruct (exec h wp pushCmd) as [po|e] eqn:Epu.
    2:{ do 3 eexists. split; [reflexivity|]. close_run (ai_push_failed D Eb Eo Ep Epu). }
    assert (Pu : pushed h wp) by (right; exists po; exact Epu).
    unfold ret at 1. unfold bind at 1. unfold modify at 1.
    unfold bind at 1. unfold execAsync at 1. fold previousCmd.
    destruct (exec h wp previousCmd) as [files|e] eqn:Ev.
    + do 3 eexists. split; [reflexivity|]. close_run (ai_reported D Eb Eo Pu Ev).
    + do 3 eexists. split; [reflexivity|]. close_run (ai_previous_failed D Eb Eo Pu Ev).
  - assert (Pu : pushed h wp) by (left; exact Ep).
    unfold ret at 1. unfold bind at 1. unfold modify at 1.
    unfold bind at 1. unfold execAsync at 1. fold previousCmd.
    destruct (exec h wp previousCmd) as [files|e] eqn:Ev.
    + do 3 eexists. split; [reflexivity|]. close_run (ai_reported D Eb Eo Pu Ev).
    + do 3 eexists. split; [reflexivity|]. close_run (ai_previous_failed D Eb Eo Pu Ev).
Qed.

Lemma basic_cycle_runs (g : Globals) :
  exists g' t, Basic.autoCommitAndPush h wp g = (Done tt, g', t) /\ BasicRun h wp g g' t.
Proof.
  unfold Basic.autoCommitAndPush, tryCatch.
  unfold bind at 1. unfold execAsync at 1. fold statusCmd.
  destruct (exec h wp statusCmd) as [out|e] eqn:Es.
  2:{ do 2 eexists. split; [reflexivity|]. close_run (basic_status_failed h wp g Es). }
  destruct (JS.truthy (JS.trim out)) eqn:Ts; cbn [negb].
  2:{ do 2 eexists. split; [reflexivity|]. close_run (basic_nothing_pending h wp g Es Ts). }
  assert (P : pending h wp) by (exists out; auto).
  unfold bind at 1. unfold execAsync at 1. fold conflictsCmd.
  destruct (exec h wp conflictsCmd) as [cf|e] eqn:Ec.
  2:{ do 2 eexists. split; [reflexivity|]. close_run (basic_conflicts_failed g P Ec). }
  destruct (JS.truthy (JS.trim cf)) eqn:Tc.
  { do 2 eexists. split; [reflexivity|]. close_run (basic_conflicted g P Ec Tc). }
  assert (Q : probed h wp) by (split; [exact P | exists cf; auto]).
  unfold bind at 1.
  destruct (basic_generateCommitMessage_returns g) as (msg & Eg).
  rewrite Eg.
  assert (D : basicDrafted h wp g msg) by (split; [exact Q | exact Eg]).
  unfold bind at 1. unfold showInputBox. fold basicPrompt.
  destruct (inputBox h basicPrompt msg) as [um|] eqn:Eb.
  2:{ do 2 eexists. split; [reflexivity|]. close_run (basic_canceled D Eb). }
  unfold bind at 1. unfold execAsync at 1. fold stageAllCmd.
  destruct (exec h wp stageAllCmd) as [ad|e] eqn:Ea.
  2:{ do 2 eexists. split; [reflexivity|]. close_run (basic_stage_failed D Eb Ea). }
  assert (A : stageAllOk h wp) by (exists ad; auto).
  unfold bind at 1. unfold execAsync at 1. fold (basicCommitCmd um).
  destruct (exec h wp (basicCommitCmd um)) as [co|e] eqn:Eo.
  2:{ do 2 eexists. split; [reflexivity|]. close_run (basic_commit_failed D Eb A Eo). }
  unfold bind at 1. fold pushCmd.
  destruct (cfgAutoPush h) eqn:Ep.
  - unfold bind at 1. unfold execAsync at 1.
    destruct (exec h wp pushCmd) as [po|e] eqn:Epu.
    2:{ do 2 eexists. split; [reflexivity|]. close_run (basic_push_failed D Eb A Eo Ep Epu). }
    assert (Pu : pushed h wp) by (right; exists po; exact Epu).
    unfold ret at 1. unfold bind at 1. unfold modify at 1.
    unfold bind at 1. unfold execAsync at 1. fold previousCmd.
    destruct (exec h wp previousCmd) as [files|e] eqn:Ev.
    + do 2 eexists. split; [reflexivity|]. close_run (basic_reported D Eb A Eo Pu Ev).
    + do 2 eexists. split; [reflexivity|]. close_run (basic_previous_failed D Eb A Eo Pu Ev).
  - assert (Pu : pushed h wp) by (left; exact Ep).
    unfold ret at 1. unfold bind at 1. unfold modify at 1.
    unfold bind at 1. unfold execAsync at 1. fold previousCmd.
    destruct (exec h wp previousCmd) as [files|e] eqn:Ev.
    + do 2 eexists. split; [reflexivity|]. close_run (basic_reported D Eb A Eo Pu Ev).
    + do 2 eexists. split; [reflexivity|]. close_run (basic_previous_failed D Eb A Eo Pu Ev).
Qed.
End Runs.

(** ** Facts about traces *)

Import Spec Cycle.

Lemma truthy_true_iff (s : string) : JS.truthy s = true <-> s <> "".
Proof. destruct s; simpl; split; congruence. Qed.

Lemma drafting_exec (wp cwd cmd : string) (t : list Event) :
  Forall (draftingEvent wp) t -> In (Exec cwd cmd) t -> cwd = wp /\ readOnlyQuery cmd.
Proof.
  intros F I. rewrite Forall_forall in F. exact (F _ I).
Qed.

Lemma drafting_no_prompt (wp p v : string) (t : list Event) :
  Forall (draftingEvent wp) t -> ~ In (ShowInputBox p v) t.
Proof.
  intros F I. rewrite Forall_forall in F. exact (F _ I).
Qed.

Lemma aiDrafted_facts (h : Host) (wp : string) (w w1 : AI.World) (msg : string)
      (t : list Event) :
  aiDrafted h wp w msg w1 t ->
  AI.globals w1 = AI.globals w /\ Forall (draftingEvent wp) t.
Proof.
  intros (_ & _ & E).
  destruct (generateCommitMessage_ends h wp w) as (o & w' & t' & E' & _ & G & F).
  rewrite E in E'. injection E' as <- <- <-. split; assumption.
Qed.

Lemma aiStalled_facts (h : Host) (wp : string) (w w1 : AI.World) (t : list Event) :
  aiStalled h wp w w1 t ->
  AI.globals w1 = AI.globals w /\ Forall (draftingEvent wp) t.
Proof.
  intros (_ & _ & E).
  destruct (generateCommitMessage_ends h wp w) as (o & w' & t' & E' & _ & G & F).
  rewrite E in E'. injection E' as <- <- <-. split; assumption.
Qed.

(** What drafting left behind, whether it returned or stalled. *)
Ltac drafting_facts G F :=
  match goal with
  | D : aiDrafted _ _ _ _ _ _ |- _ =>
      destruct (aiDrafted_facts _ _ _ _ _ _ D) as [G F]
  | D : aiStalled _ _ _ _ _ |- _ =>
      destruct (aiStalled_facts _ _ _ _ _ D) as [G F]
  end.

(** Splits a membership in a trace into its cases and discards those
    that equate different events or command lines. *)
Ltac trace_cases H :=
  unfold Cycle.aiTrace, Cycle.basicUpToPrompt, Cycle.pushEvents in H;
  repeat match type of H with
         | In _ (if ?b then _ else _) => destruct b
         | In _ (_ ++ _) => apply in_app_or in H
         | _ \/ _ => destruct H as [H|H]
         | In _ (_ :: _) => destruct H as [H|H]
         | In _ [] => destruct H
         | False => destruct H
         end.

(** Refutes an equation between different events or command lines. *)
Ltac differ H :=
  cbv [Spec.statusCmd Spec.conflictsCmd Spec.stageAllCmd Spec.stagedNamesCmd
       Spec.stagedDiffCmd Spec.pushCmd Spec.previousCmd
       Cycle.aiFailed Cycle.basicFailed Cycle.aiSummary Cycle.basicSummary
       Cycle.aiCommitCmd Cycle.basicCommitCmd] in H;
  cbn [append] in H; discriminate H.

(** ** Unresolved conflicts *)

Section Conflicts.
Variable h : Host.
Variable wp : string.
Variable listing : string.
Hypothesis listed : exec h wp conflictsCmd = ExecOk listing.
Hypothesis nonblank : JS.truthy (JS.trim listing) = true.



End Conflicts.



(** ** The statistics step *)

Lemma drafting_info (wp msg : string) (t : list Event) :
  Forall (draftingEvent wp) t -> In (ShowInformationMessage msg) t ->
  msg = "Groq API key saved!".
Proof. intros F I. rewrite Forall_forall in F. exact (F _ I). Qed.

(** Discards a membership of a command in the effects of drafting when
    the command is not one of its two queries. *)
Ltac not_drafted_by H wp t F :=
  match type of H with
  | In (Exec _ _) t =>
      let Q := fresh in
      destruct (drafting_exec wp _ _ t F H) as [_ [Q|Q]]; differ Q
  | In (ShowInputBox _ _) t =>
      exfalso; exact (drafting_no_prompt wp _ _ t F H)
  end.

Ltac not_drafted H :=
  match goal with
  | D : aiDrafted _ ?wp _ _ _ ?t |- _ =>
      not_drafted_by H wp t (proj2 (aiDrafted_facts _ _ _ _ _ _ D))
  | D : aiStalled _ ?wp _ _ ?t |- _ =>
      not_drafted_by H wp t (proj2 (aiStalled_facts _ _ _ _ _ D))
  end.

(** C4 (as amended): when the diff of names against the previous commit
    fails, as it does when there is no previous commit, a cycle of either
    revision that got that far has counted the commit (count incremented by
    1) and leaves the file count as it was; the failure is what the cycle
    reports last, and no summary is reported. *)
Theorem previous_diff_failure_ends_cycle (h : Host) (wp : string) (e : JsError) :
  exec h wp previousCmd = ExecFailed e ->
  (forall g, let r := Basic.autoCommitAndPush h wp g in
     invoked wp previousCmd (trace r) ->
     sessionCommits (final r) = S (sessionCommits g)
     /\ sessionFilesCommitted (final r) = sessionFilesCommitted g
     /\ (exists pre, trace r = pre ++ [Exec wp previousCmd; basicFailed e])
     /\ ~ summaryReported (trace r))
  /\
  (forall w, let r := AI.autoCommitAndPush h wp w in
     invoked wp previousCmd (trace r) ->
     sessionCommits (AI.globals (final r)) = S (sessionCommits (AI.globals w))
     /\ sessionFilesCommitted (AI.globals (final r))
        = sessionFilesCommitted (AI.globals w)
     /\ (exists pre, trace r = pre ++ [Exec wp previousCmd; aiFailed e])
     /\ ~ summaryReported (trace r)).
Proof.
  intros Ev. split.
  - intros g r I. subst r.
    destruct (basic_cycle_runs h wp g) as (g' & t & E & R).
    rewrite E in *. unfold trace, final, invoked in *; cbn [fst snd] in *.
    inversion R; subst; try (trace_cases I; differ I); try congruence.
    assert (e0 = e) by congruence. subst e0.
    split; [reflexivity|]. split; [reflexivity|]. split.
    + eexists. rewrite !app_assoc. reflexivity.
    + intros (m & J & C). trace_cases J; try discriminate J.
  - intros w r I. subst r.
    destruct (ai_cycle_runs h wp w) as (o & w' & t & E & R).
    rewrite E in *. unfold trace, final, invoked in *; cbn [fst snd] in *.
    inversion R; subst;
      try (trace_cases I; solve [differ I | not_drafted I]); try congruence.
    assert (e0 = e) by congruence. subst e0.
    match goal with D : aiDrafted _ _ _ _ _ _ |- _ =>
      destruct (aiDrafted_facts _ _ _ _ _ _ D) as [G F] end.
    split; [cbn; now rewrite G|]. split; [cbn; now rewrite G|]. split.
    + unfold aiTrace. eexists.
      change (ShowInputBox aiPrompt msg :: ?l) with ([ShowInputBox aiPrompt msg] ++ l).
      rewrite !app_assoc. reflexivity.
    + intros (m & J & C). trace_cases J; try discriminate J.
      apply (drafting_info wp m t0 F) in J. subst m. discriminate C.
Qed.

Lemma no_previous_commit_not_tolerated :
  let h := Sample.host (Sample.repo (nameListing ["a.ts"]) Sample.ok Sample.ok
                                    Sample.noPreviousCommit)
                       Sample.accept true GroqError in
  let w := Sample.world initialGlobals in
  (let r := AI.autoCommitAndPush h "/repo" w in
   invoked "/repo" previousCmd (trace r)
   /\ ~ reportingCompleted (sessionCommits (AI.globals w))
                           (sessionCommits (AI.globals (final r))) (trace r))
  /\
  (let r := Basic.autoCommitAndPush h "/repo" initialGlobals in
   invoked "/repo" previousCmd (trace r)
   /\ ~ reportingCompleted 0 (sessionCommits (final r)) (trace r)).
Proof.
  cbv zeta. split; split.
  - vm_compute. do 7 right. left. reflexivity.
  - intros (_ & _ & N). apply N. eexists. vm_compute. do 8 right. left. reflexivity.
  - vm_compute. do 7 right. left. reflexivity.
  - intros (_ & _ & N). apply N. eexists. vm_compute. do 8 right. left. reflexivity.
Qed.

Lemma previous_diff_failure_ends_cycle_witness :
  let h := Sample.host (Sample.repo (nameListing ["a.ts"]) Sample.ok Sample.ok
                                    Sample.noPreviousCommit)
                       Sample.accept true GroqError in
  let r := AI.autoCommitAndPush h "/repo" (Sample.world initialGlobals) in
  sessionCommits (AI.globals (final r)) = 1 /\ ~ summaryReported (trace r).
Proof.
  cbv zeta.
  pose proof (previous_diff_failure_ends_cycle
                (Sample.host (Sample.repo (nameListing ["a.ts"]) Sample.ok Sample.ok
                                          Sample.noPreviousCommit)
                             Sample.accept true GroqError)
                "/repo" Sample.noPreviousCommitError eq_refl) as [_ T].
  destruct (T (Sample.world initialGlobals)) as (C & _ & _ & N).
  - vm_compute. do 7 right. left. reflexivity.
  - split; assumption.
Defined.

(** ** A failed push *)

Lemma failureReports_app (a b : list Event) :
  failureReports (a ++ b) = failureReports a ++ failureReports b.
Proof.
  induction a as [|x a IH]; [reflexivity|].
  destruct x; cbn [app failureReports]; rewrite IH; reflexivity.
Qed.

Lemma drafting_no_failure (wp : string) (t : list Event) :
  Forall (draftingEvent wp) t -> failureReports t = [].
Proof.
  induction 1 as [|x t Hx _ IH]; [reflexivity|].
  destruct x; cbn [failureReports]; try exact IH. destruct Hx.
Qed.

Lemma aiFailure_inj (e1 e2 : JsError) :
  aiFailure e1 = aiFailure e2 -> errMessage e1 = errMessage e2.
Proof. apply append_inj_l. Qed.

Lemma basicFailure_inj (e1 e2 : JsError) :
  basicFailure e1 = basicFailure e2 -> errString e1 = errString e2.
Proof.
  unfold basicFailure, Basic.label, Basic.errToString. intros H.
  repeat apply append_inj_l in H. exact H.
Qed.

(** In a run whose push was switched off or succeeded, a membership that
    needs a failed push is absurd. *)
Ltac no_push I :=
  match goal with
  | P : pushed _ _ |- _ =>
      destruct P as [P|[? P]];
      [ unfold pushEvents in I; rewrite P in I;
        trace_cases I; solve [differ I | not_drafted I]
      | congruence ]
  end.

Lemma ai_push_failure (h : Host) (wp : string) (e : JsError) (w : AI.World) :
  exec h wp pushCmd = ExecFailed e ->
  let r := AI.autoCommitAndPush h wp w in
  invoked wp pushCmd (trace r) ->
  exists pre, trace r = pre ++ [Exec wp pushCmd; ShowErrorMessage (aiFailure e)]
              /\ commitInvoked pre /\ failureReports pre = [].
Proof.
  intros Ep r I. subst r.
  destruct (ai_cycle_runs h wp w) as (o & w' & t & E & R).
  rewrite E in *. unfold trace, invoked in *; cbn [fst snd] in *.
  inversion R; subst;
    try (trace_cases I; solve [differ I | not_drafted I]);
    try solve [no_push I].
  assert (e0 = e) by congruence. subst e0.
  match goal with D : aiDrafted _ _ _ _ _ _ |- _ =>
    destruct (aiDrafted_facts _ _ _ _ _ _ D) as [_ F] end.
  exists ([Exec wp statusCmd; Exec wp conflictsCmd; Exec wp stageAllCmd]
          ++ t0 ++ [ShowInputBox aiPrompt msg; Exec wp (aiCommitCmd um)]).
  split; [|split].
  - unfold aiTrace. rewrite <- !app_assoc. reflexivity.
  - exists wp, (aiCommitCmd um). split; [|reflexivity].
    apply in_or_app. right. apply in_or_app. right. right. left. reflexivity.
  - rewrite !failureReports_app, (drafting_no_failure wp t0 F). reflexivity.
Qed.

Lemma basic_push_failure (h : Host) (wp : string) (e : JsError) (g : Globals) :
  exec h wp pushCmd = ExecFailed e ->
  let r := Basic.autoCommitAndPush h wp g in
  invoked wp pushCmd (trace r) ->
  exists pre, trace r = pre ++ [Exec wp pushCmd; ShowErrorMessage (basicFailure e)]
              /\ commitInvoked pre /\ failureReports pre = [].
Proof.
  intros Ep r I. subst r.
  destruct (basic_cycle_runs h wp g) as (g' & t & E & R).
  rewrite E in *. unfold trace, invoked in *; cbn [fst snd] in *.
  inversion R; subst;
    try (trace_cases I; solve [differ I]);
    try solve [no_push I].
  assert (e0 = e) by congruence. subst e0.
  exists (basicUpToPrompt wp msg ++ [Exec wp stageAllCmd; Exec wp (basicCommitCmd um)]).
  split; [|split].
  - reflexivity.
  - exists wp, (basicCommitCmd um). split; [|reflexivity].
    apply in_or_app. right. right. left. reflexivity.
  - reflexivity.
Qed.

Lemma same_command (cwd cwd' cmd cmd' : string) :
  Exec cwd cmd = Exec cwd' cmd' -> cmd = cmd'.
Proof. intros H. injection H as _ H. exact H. Qed.

Lemma ai_commit_failure (h : Host) (wp um : string) (e : JsError) (w : AI.World) :
  exec h wp (aiCommitCmd um) = ExecFailed e ->
  let r := AI.autoCommitAndPush h wp w in
  invoked wp (aiCommitCmd um) (trace r) ->
  failureReports (trace r) = [aiFailure e].
Proof.
  intros Eo r I. subst r.
  destruct (ai_cycle_runs h wp w) as (o & w' & t & E & R).
  rewrite E in *. unfold trace, invoked in *; cbn [fst snd] in *.
  inversion R; subst;
    try (trace_cases I; solve [differ I | not_drafted I]).
  all: trace_cases I; try solve [differ I | not_drafted I].
  all: apply same_command in I; rewrite <- I in Eo; try congruence.
  assert (e0 = e) by congruence. subst e0.
  match goal with D : aiDrafted _ _ _ _ _ _ |- _ =>
    destruct (aiDrafted_facts _ _ _ _ _ _ D) as [_ F] end.
  unfold aiTrace. rewrite !failureReports_app, (drafting_no_failure wp t0 F).
  reflexivity.
Qed.

Lemma basic_commit_failure (h : Host) (wp um : string) (e : JsError) (g : Globals) :
  exec h wp (basicCommitCmd um) = ExecFailed e ->
  let r := Basic.autoCommitAndPush h wp g in
  invoked wp (basicCommitCmd um) (trace r) ->
  failureReports (trace r) = [basicFailure e].
Proof.
  intros Eo r I. subst r.
  destruct (basic_cycle_runs h wp g) as (g' & t & E & R).
  rewrite E in *. unfold trace, invoked in *; cbn [fst snd] in *.
  inversion R; subst;
    try (trace_cases I; solve [differ I]).
  all: trace_cases I; try solve [differ I].
  all: apply same_command in I; rewrite <- I in Eo; try congruence.
  assert (e0 = e) by congruence. subst e0. reflexivity.
Qed.

(** The two revisions on a push that overflows [maxBuffer]: the basic
    one shows the error with its name and code, the AI-enabled one its
    message alone. *)
Example overflow_reports :
  let h := Sample.host (Sample.repo (nameListing ["a.ts"]) Sample.ok Sample.overflow
                                    Sample.ok)
                       Sample.accept true GroqError in
  failureReports (trace (Basic.autoCommitAndPush h "/repo" initialGlobals))
  = [(Basic.books
      ++ " DevChronicle: Commit failed - RangeError [ERR_CHILD_PROCESS_STDIO_MAXBUFFER]: "
      ++ "stderr maxBuffer length exceeded")%string]
  /\ failureReports (trace (AI.autoCommitAndPush h "/repo" (Sample.world initialGlobals)))
     = ["Commit failed: stderr maxBuffer length exceeded"].
Proof. split; reflexivity. Qed.

(** C6 (as amended): when the commit succeeds and the push then fails,
    the cycle, in either revision, ends on the failed push and its one
    failure report: the commit has been invoked before, nothing has been
    reported as failed before, and no git command follows, so the commit
    is not rolled back.  The report is the same [Commit failed] message
    that a failing commit is reported with, around the error of the
    failed subprocess: its string form [`${err}`] in the basic revision,
    [err.message] in the AI-enabled one; the two reports differ exactly
    when those texts do. *)
Theorem push_failure_report (h : Host) (wp : string) :
  (forall e g, exec h wp pushCmd = ExecFailed e ->
     let r := Basic.autoCommitAndPush h wp g in
     invoked wp pushCmd (trace r) ->
     exists pre,
       trace r = pre ++ [Exec wp pushCmd; ShowErrorMessage (basicFailure e)]
       /\ commitInvoked pre /\ failureReports pre = [])
  /\
  (forall e w, exec h wp pushCmd = ExecFailed e ->
     let r := AI.autoCommitAndPush h wp w in
     invoked wp pushCmd (trace r) ->
     exists pre,
       trace r = pre ++ [Exec wp pushCmd; ShowErrorMessage (aiFailure e)]
       /\ commitInvoked pre /\ failureReports pre = [])
  /\
  (forall e um g, exec h wp (basicCommitCmd um) = ExecFailed e ->
     let r := Basic.autoCommitAndPush h wp g in
     invoked wp (basicCommitCmd um) (trace r) ->
     failureReports (trace r) = [basicFailure e])
  /\
  (forall e um w, exec h wp (aiCommitCmd um) = ExecFailed e ->
     let r := AI.autoCommitAndPush h wp w in
     invoked wp (aiCommitCmd um) (trace r) ->
     failureReports (trace r) = [aiFailure e])
  /\
  (forall e1 e2,
      (basicFailure e1 = basicFailure e2 <-> errString e1 = errString e2)
      /\ (aiFailure e1 = aiFailure e2 <-> errMessage e1 = errMessage e2)).
Proof.
  split; [|split; [|split; [|split]]].
  - intros e g. apply basic_push_failure.
  - intros e w. apply ai_push_failure.
  - intros e um g. apply basic_commit_failure.
  - intros e um w. apply ai_commit_failure.
  - intros e1 e2. split; split; intros H.
    + now apply basicFailure_inj.
    + unfold basicFailure, Basic.errToString. now rewrite H.
    + now apply aiFailure_inj.
    + unfold aiFailure. now rewrite H.
Qed.

Lemma push_failure_report_witness :
  let h := Sample.host (Sample.repo (nameListing ["a.ts"]) Sample.ok Sample.overflow
                                    Sample.ok)
                       Sample.accept true GroqError in
  let r := AI.autoCommitAndPush h "/repo" (Sample.world initialGlobals) in
  exists pre,
    trace r = pre ++ [Exec "/repo" pushCmd;
                      ShowErrorMessage (aiFailure Sample.overflowError)]
    /\ commitInvoked pre /\ failureReports pre = [].
Proof.
  cbv zeta.
  apply (proj1 (proj2 (push_failure_report
           (Sample.host (Sample.repo (nameListing ["a.ts"]) Sample.ok Sample.overflow
                                     Sample.ok)
                        Sample.accept true GroqError) "/repo"))).
  - reflexivity.
  - vm_compute. do 6 right. left. reflexivity.
Defined.

Lemma push_failure_not_reported_distinctly :
  let staged := nameListing ["a.ts"] in
  let commitFails := Sample.host (Sample.repo staged Sample.overflow Sample.ok Sample.ok)
                                 Sample.accept true GroqError in
  let pushFails := Sample.host (Sample.repo staged Sample.ok Sample.overflow Sample.ok)
                               Sample.accept true GroqError in
  let w := Sample.world initialGlobals in
  let rc := AI.autoCommitAndPush commitFails "/repo" w in
  let rp := AI.autoCommitAndPush pushFails "/repo" w in
  ~ invoked "/repo" pushCmd (trace rc)
  /\ invoked "/repo" pushCmd (trace rp)
  /\ commitInvoked (trace rp)
  /\ ~ reportedDistinctly (trace rc) (trace rp).
Proof.
  cbv zeta. split; [|split; [|split]].
  - vm_compute. intros H. trace_cases H; discriminate H.
  - vm_compute. do 6 right. left. reflexivity.
  - exists "/repo". eexists. split.
    + vm_compute. do 5 right. left. reflexivity.
    + reflexivity.
  - intros N. apply N. reflexivity.
Qed.

(** ** Triggers *)

(** A cycle of the AI-enabled revision begins with the status query; it
    returns, or it stalls in drafting with the module-level variables as
    they were. *)
Lemma ai_cycle_starts (h : Host) (wp : string) (w : AI.World) :
  exists o w' rest,
    AI.autoCommitAndPush h wp w = (o, w', Exec wp statusCmd :: rest)
    /\ (o = Done tt \/ (o = Pending /\ AI.globals w' = AI.globals w)).
Proof.
  destruct (ai_cycle_runs h wp w) as (o & w' & t & E & R).
  rewrite E. inversion R; subst; do 3 eexists; (split; [reflexivity|]);
    try (left; reflexivity).
  right. split; [reflexivity|].
  match goal with D : aiStalled _ _ _ _ _ |- _ =>
    exact (proj1 (aiStalled_facts _ _ _ _ _ D)) end.
Qed.

Lemma basic_cycle_starts (h : Host) (wp : string) (g : Globals) :
  exists g' rest,
    Basic.autoCommitAndPush h wp g = (Done tt, g', Exec wp statusCmd :: rest).
Proof.
  destruct (basic_cycle_runs h wp g) as (g' & t & E & R).
  rewrite E. inversion R; subst; do 2 eexists; reflexivity.
Qed.

Lemma isPaused_before_expiry (now expiry : N) (g : Globals) :
  pausedUntil g = Some expiry -> (now < expiry)%N -> isPaused now g = true.
Proof.
  intros E L. unfold isPaused. rewrite E.
  apply andb_true_iff. split.
  - apply negb_true_iff, N.eqb_neq. lia.
  - now apply N.ltb_lt.
Qed.

Lemma ai_switch_while_paused (h : Host) (editor : Editor) (w : AI.World) :
  isPaused (dateNow h) (AI.globals w) = true ->
  AI.handleFileSwitch h editor w = (Done tt, w, []).
Proof.
  intros P. unfold AI.handleFileSwitch. unfold bind at 1. unfold get.
  rewrite P, orb_true_r. reflexivity.
Qed.

Lemma basic_switch_while_paused (h : Host) (editor : option Editor) (g : Globals) :
  isPaused (dateNow h) g = true ->
  Basic.handleFileSwitch h editor g = (Done tt, g, []).
Proof.
  intros P. destruct editor as [editor|]; [|reflexivity].
  unfold Basic.handleFileSwitch. unfold bind at 1. unfold get.
  rewrite P. destruct (negb (truthyOpt (lastSavedFile g))); reflexivity.
Qed.

(** C7 (as amended): while the suppression window is active (current time
    before the expiry), every change of active file is turned down, in
    either revision: nothing runs and nothing changes.  The manual
    commit-now command does not consult the window: given a workspace
    folder, which in the AI-enabled revision must hold a [.git] entry, it
    starts a cycle whatever the window is. *)
Theorem switch_suppressed_while_paused (h : Host) :
  (forall expiry editor g,
      pausedUntil g = Some expiry -> (dateNow h < expiry)%N ->
      Basic.handleFileSwitch h editor g = (Done tt, g, []))
  /\
  (forall expiry editor w,
      pausedUntil (AI.globals w) = Some expiry -> (dateNow h < expiry)%N ->
      AI.onDidChangeActiveTextEditor h editor w = (Done tt, w, []))
  /\
  (forall folder others g,
      workspaceFolders h = Some (folder :: others) ->
      cycleStarted (trace (Basic.manualCommit h g)))
  /\
  (forall folder others w,
      workspaceFolders h = Some (folder :: others) ->
      AI.isGitRepository h folder = true ->
      cycleStarted (trace (AI.manualCommit h w))).
Proof.
  split; [|split; [|split]].
  - intros expiry editor g E L.
    apply basic_switch_while_paused. now apply isPaused_before_expiry with expiry.
  - intros expiry [editor|] w E L; [|reflexivity].
    apply ai_switch_while_paused. now apply isPaused_before_expiry with expiry.
  - intros folder others g F. unfold Basic.manualCommit. rewrite F.
    destruct (basic_cycle_starts h folder g) as (g' & rest & ->).
    exists folder, rest. reflexivity.
  - intros folder others w F G. unfold AI.manualCommit. rewrite F, G. cbn [negb].
    destruct (ai_cycle_starts h folder w) as (o & w' & rest & -> & _).
    exists folder, rest. reflexivity.
Qed.

Lemma switch_suppressed_while_paused_witness :
  let h := Sample.host (Sample.repo "" Sample.ok Sample.ok Sample.ok)
                       Sample.accept true GroqError in
  let w := Sample.world (Sample.pausedAt 5000 (Sample.saved "/repo/a.ts")) in
  AI.onDidChangeActiveTextEditor h (Some {| fileName := "/repo/b.ts" |}) w
  = (Done tt, w, []).
Proof.
  cbv zeta.
  apply (proj1 (proj2 (switch_suppressed_while_paused
           (Sample.host (Sample.repo "" Sample.ok Sample.ok Sample.ok)
                        Sample.accept true GroqError))) 5000%N).
  - reflexivity.
  - reflexivity.
Defined.

Lemma manual_commit_not_suppressed :
  let h := Sample.host (Sample.repo "" Sample.ok Sample.ok Sample.ok)
                       Sample.accept true GroqError in
  let g := Sample.pausedAt 5000 initialGlobals in
  isPaused (dateNow h) g = true
  /\ cycleStarted (trace (AI.manualCommit h (Sample.world g)))
  /\ cycleStarted (trace (Basic.manualCommit h g)).
Proof.
  cbv zeta. split; [reflexivity|]. split.
  - eexists. eexists. vm_compute. reflexivity.
  - eexists. eexists. vm_compute. reflexivity.
Qed.

(** ** Cancelling at the confirmation prompt *)

Lemma commit_is_no_query (cmd : string) :
  readOnlyQuery cmd -> isCommitCmd cmd = false.
Proof. intros [-> | ->]; reflexivity. Qed.

(** C9: in the AI-enabled revision, a cycle that shows the confirmation
    prompt and has it cancelled has run [git add .], successfully, before
    the prompt; between the staging and the prompt it only queried the
    index, after the prompt it only tells that the commit was cancelled:
    no commit is invoked and nothing undoes the staging, so what has been
    staged stays staged.  The module-level variables are as before. *)
Theorem cancel_leaves_changes_staged (h : Host) (wp : string) (w : AI.World)
        (value : string) :
  let r := AI.autoCommitAndPush h wp w in
  In (ShowInputBox aiPrompt value) (trace r) ->
  inputBox h aiPrompt value = None ->
  stageAllOk h wp
  /\ (exists t,
         trace r = [Exec wp statusCmd; Exec wp conflictsCmd; Exec wp stageAllCmd]
                   ++ t
                   ++ [ShowInputBox aiPrompt value;
                       ShowInformationMessage "Commit canceled."]
         /\ forall cwd cmd, In (Exec cwd cmd) t -> readOnlyQuery cmd)
  /\ ~ commitInvoked (trace r)
  /\ AI.globals (final r) = AI.globals w.
Proof.
  intros r I B. subst r.
  destruct (ai_cycle_runs h wp w) as (o & w' & t & E & R).
  rewrite E in *. unfold trace, final in *; cbn [fst snd] in *.
  inversion R; subst; try (trace_cases I; solve [differ I | not_drafted I]).
  all: match goal with D : aiDrafted _ _ _ _ _ _ |- _ =>
         destruct (aiDrafted_facts _ _ _ _ _ _ D) as [G F];
         pose proof (proj1 (proj2 D)) as A end.
  all: assert (value = msg)
    by (trace_cases I; try solve [differ I | not_drafted I];
        injection I as I; now subst).
  all: subst value; try congruence.
  split; [exact A|]. split; [|split].
  - exists t0. split; [reflexivity|].
    intros cwd cmd J. exact (proj2 (drafting_exec wp cwd cmd t0 F J)).
  - intros (cwd & cmd & J & C).
    trace_cases J; try discriminate J;
      try (apply same_command in J; subst cmd; discriminate C).
    apply (drafting_exec wp cwd cmd t0 F) in J. destruct J as [_ J].
    rewrite (commit_is_no_query cmd J) in C. discriminate C.
  - exact G.
Qed.

Lemma cancel_leaves_changes_staged_witness :
  let h := Sample.host (Sample.repo (nameListing ["a.ts"]) Sample.ok Sample.ok Sample.ok)
                       Sample.cancel true GroqError in
  let r := AI.autoCommitAndPush h "/repo" (Sample.world initialGlobals) in
  invoked "/repo" stageAllCmd (trace r) /\ ~ commitInvoked (trace r).
Proof.
  cbv zeta.
  destruct (cancel_leaves_changes_staged
              (Sample.host (Sample.repo (nameListing ["a.ts"]) Sample.ok Sample.ok
                                        Sample.ok)
                           Sample.cancel true GroqError)
              "/repo" (Sample.world initialGlobals) "chore: update a.ts")
    as (_ & (t & E & _) & N & _).
  - vm_compute. do 4 right. left. reflexivity.
  - reflexivity.
  - split; [|exact N]. unfold invoked. rewrite E. right. right. left. reflexivity.
Defined.

(** ** The pending save marker *)

Section Marker.
Variable h : Host.
Variable editor : Editor.

Lemma rejected_or_qualifies (g : Globals) :
  rejected h (fileName editor) g \/ qualifies h (fileName editor) g.
Proof.
  unfold rejected, qualifies.
  destruct (truthyOpt (lastSavedFile g)) eqn:T; [|auto].
  destruct (isPaused (dateNow h) g) eqn:P; [auto|].
  destruct (string_dec (fileName editor)
              (match lastSavedFile g with Some f => f | None => "" end)) as [Q|Q].
  - left. right. right. left.
    destruct (lastSavedFile g); [now rewrite Q | discriminate T].
  - destruct (getWorkspaceFolder h (fileName editor)) as [folder|] eqn:F; [|auto 6].
    destruct (existsSync h (path_join h folder ".git")) eqn:X.
    + right. repeat split; try reflexivity.
      * intros L. rewrite L in Q. now apply Q.
      * exists folder. auto.
    + left. do 4 right. exists folder. auto.
Qed.

Lemma not_both (g : Globals) :
  rejected h (fileName editor) g -> qualifies h (fileName editor) g -> False.
Proof.
  intros [R|[R|[R|[R|(f & R1 & R2)]]]] (T & P & L & f' & F & X); try congruence.
Qed.

Lemma basic_switch_rejected (g : Globals) :
  rejected h (fileName editor) g ->
  Basic.handleFileSwitch h (Some editor) g = (Done tt, g, []).
Proof.
  intros R. unfold Basic.handleFileSwitch. unfold bind at 1. unfold get.
  destruct (truthyOpt (lastSavedFile g)) eqn:T; [|reflexivity]. cbn [negb].
  destruct (isPaused (dateNow h) g) eqn:P; [reflexivity|].
  destruct (String.eqb_spec (fileName editor)
              (match lastSavedFile g with Some f => f | None => "" end)) as [Q|Q];
    [reflexivity|].
  destruct (getWorkspaceFolder h (fileName editor)) as [folder|] eqn:F; [|reflexivity].
  unfold Basic.isGitRepository.
  destruct (existsSync h (path_join h folder ".git")) eqn:X; [|reflexivity].
  exfalso. apply (not_both g R). repeat split; try assumption.
  - intros L. rewrite L in Q. now apply Q.
  - exists folder. auto.
Qed.

Lemma basic_switch_qualified (g : Globals) :
  qualifies h (fileName editor) g ->
  exists folder g' rest,
    Basic.handleFileSwitch h (Some editor) g
    = (Done tt, setLastSavedFile None g', Exec folder statusCmd :: rest).
Proof.
  intros (T & P & L & folder & F & X).
  unfold Basic.handleFileSwitch. unfold bind at 1. unfold get.
  rewrite T, P. cbn [negb].
  destruct (String.eqb_spec (fileName editor)
              (match lastSavedFile g with Some f => f | None => "" end)) as [Q|Q].
  { exfalso. apply L. destruct (lastSavedFile g); [now rewrite Q | discriminate T]. }
  rewrite F. unfold Basic.isGitRepository. rewrite X. cbn [negb].
  unfold bind. destruct (basic_cycle_starts h folder g) as (g' & rest & ->).
  exists folder, g', (rest ++ []). reflexivity.
Qed.

Lemma ai_switch_rejected (w : AI.World) :
  rejected h (fileName editor) (AI.globals w) ->
  AI.handleFileSwitch h editor w = (Done tt, w, []).
Proof.
  intros R. unfold AI.handleFileSwitch. unfold bind at 1. unfold get.
  destruct (truthyOpt (lastSavedFile (AI.globals w))) eqn:T; [|reflexivity]. cbn [negb orb].
  destruct (isPaused (dateNow h) (AI.globals w)) eqn:P; [reflexivity|].
  destruct (String.eqb_spec (fileName editor)
              (match lastSavedFile (AI.globals w) with Some f => f | None => "" end))
    as [Q|Q]; [reflexivity|].
  destruct (getWorkspaceFolder h (fileName editor)) as [folder|] eqn:F; [|reflexivity].
  unfold AI.isGitRepository.
  destruct (existsSync h (path_join h folder ".git")) eqn:X; [|reflexivity].
  exfalso. apply (not_both (AI.globals w) R). repeat split; try assumption.
  - intros L. rewrite L in Q. now apply Q.
  - exists folder. auto.
Qed.

(** A qualifying change starts the cycle; the marker is cleared once
    the cycle has returned, and kept while it stalls. *)
Lemma ai_switch_qualified (w : AI.World) :
  qualifies h (fileName editor) (AI.globals w) ->
  exists folder w' rest,
    AI.handleFileSwitch h editor w
    = (Done tt, AI.onGlobals (setLastSavedFile None) w', Exec folder statusCmd :: rest)
    \/ (AI.handleFileSwitch h editor w = (Pending, w', Exec folder statusCmd :: rest)
        /\ AI.globals w' = AI.globals w).
Proof.
  intros (T & P & L & folder & F & X).
  assert (E : AI.handleFileSwitch h editor w
              = bind (AI.autoCommitAndPush h folder)
                     (fun _ => modify (AI.onGlobals (setLastSavedFile None))) w).
  { unfold AI.handleFileSwitch. unfold bind at 1. unfold get.
    rewrite T, P. cbn [negb orb].
    destruct (String.eqb_spec (fileName editor)
                (match lastSavedFile (AI.globals w) with Some f => f | None => "" end))
      as [Q|Q].
    { exfalso. apply L.
      destruct (lastSavedFile (AI.globals w)); [now rewrite Q | discriminate T]. }
    rewrite F. unfold AI.isGitRepository. rewrite X. cbn [negb app].
    destruct (bind _ _ w) as [[o w'] t]. reflexivity. }
  rewrite E. unfold bind.
  destruct (ai_cycle_starts h folder w) as (o & w' & rest & -> & [-> | [-> G]]).
  - exists folder, w', (rest ++ []). left. reflexivity.
  - exists folder, w', rest. right. split; [reflexivity | exact G].
Qed.

Lemma ai_switch_starts (w : AI.World) :
  qualifies h (fileName editor) (AI.globals w) ->
  cycleStarted (trace (AI.handleFileSwitch h editor w)).
Proof.
  intros Q.
  destruct (ai_switch_qualified w Q) as (folder & w' & rest & [-> | [-> _]]);
    exists folder; eexists; reflexivity.
Qed.

End Marker.

(** C10: the pending save marker is cleared only by a change of active
    file that gets as far as invoking the cycle.  In either revision a
    change turned down earlier (no pending save, suppression window
    active, same file, no workspace folder, folder without a [.git]
    entry) runs nothing and leaves the state, the marker included, as it
    was; whenever the marker has changed the cycle has started; a change
    that qualifies starts the cycle and leaves the marker cleared, unless
    the cycle of the AI-enabled revision never returns, awaiting a
    completion that does not come, when the marker stays as it was; and
    after a change turned down, a later one that qualifies for the same
    save still starts a cycle. *)
Theorem marker_cleared_only_after_cycle (h : Host) (editor : Editor) :
  (forall g, let r := Basic.handleFileSwitch h (Some editor) g in
     (rejected h (fileName editor) g -> r = (Done tt, g, []))
     /\ (lastSavedFile (final r) <> lastSavedFile g -> cycleStarted (trace r))
     /\ (qualifies h (fileName editor) g ->
         cycleStarted (trace r) /\ lastSavedFile (final r) = None)
     /\ (rejected h (fileName editor) g ->
         forall h' editor', qualifies h' (fileName editor') g ->
           cycleStarted (trace (Basic.handleFileSwitch h' (Some editor') (final r)))))
  /\
  (forall w, let r := AI.handleFileSwitch h editor w in
     (rejected h (fileName editor) (AI.globals w) -> r = (Done tt, w, []))
     /\ (lastSavedFile (AI.globals (final r)) <> lastSavedFile (AI.globals w) ->
         cycleStarted (trace r))
     /\ (qualifies h (fileName editor) (AI.globals w) ->
         cycleStarted (trace r)
         /\ ((result r = Done tt /\ lastSavedFile (AI.globals (final r)) = None)
             \/ (result r = Pending
                 /\ lastSavedFile (AI.globals (final r))
                    = lastSavedFile (AI.globals w))))
     /\ (rejected h (fileName editor) (AI.globals w) ->
         forall h' editor', qualifies h' (fileName editor') (AI.globals w) ->
           cycleStarted (trace (AI.handleFileSwitch h' editor' (final r))))).
Proof.
  split.
  - intros g r.
    assert (Q : qualifies h (fileName editor) g ->
                cycleStarted (trace r) /\ lastSavedFile (final r) = None).
    { intros Q. subst r.
      destruct (basic_switch_qualified h editor g Q) as (folder & g' & rest & ->).
      split; [exists folder, rest|]; reflexivity. }
    split; [|split; [|split]].
    + apply basic_switch_rejected.
    + intros N. destruct (rejected_or_qualifies h editor g) as [R|R].
      * exfalso. apply N. subst r. now rewrite (basic_switch_rejected h editor g R).
      * exact (proj1 (Q R)).
    + exact Q.
    + intros R h' editor' Q'. subst r.
      rewrite (basic_switch_rejected h editor g R). unfold final; cbn [fst snd].
      destruct (basic_switch_qualified h' editor' g Q') as (folder & g' & rest & ->).
      exists folder, rest. reflexivity.
  - intros w r.
    assert (Q : qualifies h (fileName editor) (AI.globals w) ->
                cycleStarted (trace r)
                /\ ((result r = Done tt
                     /\ lastSavedFile (AI.globals (final r)) = None)
                    \/ (result r = Pending
                        /\ lastSavedFile (AI.globals (final r))
                           = lastSavedFile (AI.globals w)))).
    { intros Q. subst r.
      destruct (ai_switch_qualified h editor w Q)
        as (folder & w' & rest & [-> | [-> G]]).
      - split; [exists folder, rest; reflexivity|]. left. split; reflexivity.
      - split; [exists folder, rest; reflexivity|]. right.
        split; [reflexivity|]. unfold final; cbn [fst snd]. now rewrite G. }
    split; [|split; [|split]].
    + apply ai_switch_rejected.
    + intros N. destruct (rejected_or_qualifies h editor (AI.globals w)) as [R|R].
      * exfalso. apply N. subst r. now rewrite (ai_switch_rejected h editor w R).
      * exact (proj1 (Q R)).
    + exact Q.
    + intros R h' editor' Q'. subst r.
      rewrite (ai_switch_rejected h editor w R). unfold final; cbn [fst snd].
      exact (ai_switch_starts h' editor' w Q').
Qed.

Lemma marker_cleared_only_after_cycle_witness :
  let h := Sample.host (Sample.repo "" Sample.ok Sample.ok Sample.ok)
                       Sample.accept true GroqError in
  let w := Sample.world (Sample.saved "/repo/a.ts") in
  AI.handleFileSwitch h {| fileName := "/repo/a.ts" |} w = (Done tt, w, [])
  /\ cycleStarted (trace (AI.handleFileSwitch h {| fileName := "/repo/b.ts" |} w)).
Proof.
  cbv zeta. split.
  - apply (proj2 (marker_cleared_only_after_cycle
             (Sample.host (Sample.repo "" Sample.ok Sample.ok Sample.ok)
                          Sample.accept true GroqError)
             {| fileName := "/repo/a.ts" |})).
    right. right. left. reflexivity.
  - apply (proj2 (marker_cleared_only_after_cycle
             (Sample.host (Sample.repo "" Sample.ok Sample.ok Sample.ok)
                          Sample.accept true GroqError)
             {| fileName := "/repo/b.ts" |})
             (Sample.world (Sample.saved "/repo/a.ts"))).
    repeat split; try reflexivity.
    + discriminate.
    + exists "/repo". split; reflexivity.
Defined.

(** ** Staging and drafting *)

(** In the AI-enabled revision every cycle that drafts a message has
    staged before. *)
Lemma ai_drafts_after_staging (h : Host) (wp : string) (w : AI.World) :
  draftedAfterStaging (trace (AI.autoCommitAndPush h wp w)).
Proof.
  destruct (ai_cycle_runs h wp w) as (o & w' & t & E & R).
  rewrite E. unfold trace; cbn [snd].
  inversion R; subst; intros Q; try discriminate Q; reflexivity.
Qed.

(** C5 (the code departs from it): in the basic revision the message
    generator queries the index, and the drafted message is shown for
    confirmation, before [git add .] runs.  With one modified file and
    nothing staged yet the generator sees an empty index and drafts
    [Update code]; the commit that follows contains the file. *)
Theorem basic_drafts_before_staging :
  let h := Sample.host (Sample.repo "" Sample.ok Sample.ok
                                    (ExecOk (nameListing ["a.ts"])))
                       Sample.accept true GroqError in
  let r := Basic.autoCommitAndPush h "/repo" initialGlobals in
  trace r
  = [Exec "/repo" statusCmd; Exec "/repo" conflictsCmd;
     Exec "/repo" stagedNamesCmd; ShowInputBox basicPrompt "Update code";
     Exec "/repo" stageAllCmd; Exec "/repo" (basicCommitCmd "Update code");
     Exec "/repo" pushCmd; Exec "/repo" previousCmd;
     basicSummary (addSessionFiles 1 (incrSessionCommits initialGlobals))]
  /\ ~ draftedAfterStaging (trace r).
Proof.
  cbv zeta. split; [reflexivity|].
  intros D. specialize (D eq_refl). discriminate D.
Qed.

(** ** Confirming with an empty message *)

(** In the AI-enabled revision the commit that follows an emptied prompt
    carries the literal default. *)
Lemma ai_empty_confirmation (h : Host) (wp : string) (w : AI.World) (value : string) :
  let r := AI.autoCommitAndPush h wp w in
  In (ShowInputBox aiPrompt value) (trace r) ->
  inputBox h aiPrompt value = Some "" ->
  invoked wp ("git commit -m " ++ quoted "chore: update") (trace r)
  /\ forall cwd cmd, In (Exec cwd cmd) (trace r) -> isCommitCmd cmd = true ->
                     cmd = ("git commit -m " ++ quoted "chore: update")%string.
Proof.
  intros r I B. subst r.
  destruct (ai_cycle_runs h wp w) as (o & w' & t & E & R).
  rewrite E in *. unfold trace, invoked in *; cbn [fst snd] in *.
  inversion R; subst; try (trace_cases I; solve [differ I | not_drafted I]).
  all: match goal with D : aiDrafted _ _ _ _ _ _ |- _ =>
         destruct (aiDrafted_facts _ _ _ _ _ _ D) as [G F] end.
  all: assert (value = msg)
    by (trace_cases I; try solve [differ I | not_drafted I];
        injection I as I; now subst).
  all: subst value; try congruence.
  all: assert (um = "") by congruence; subst um.
  all: split;
    [ unfold aiTrace; apply in_or_app; right; apply in_or_app; right;
      right; left; reflexivity
    | intros cwd cmd J C; trace_cases J; try discriminate J;
      try (apply same_command in J; subst cmd; first [reflexivity | discriminate C]);
      apply (drafting_exec wp cwd cmd t0 F) in J; destruct J as [_ J];
      rewrite (commit_is_no_query cmd J) in C; discriminate C ].
Qed.

(** Cancelling the prompt of the basic revision: no commit, and nothing
    staged either. *)
Lemma basic_cancel_no_commit (h : Host) (wp : string) (g : Globals) (value : string) :
  let r := Basic.autoCommitAndPush h wp g in
  In (ShowInputBox basicPrompt value) (trace r) ->
  inputBox h basicPrompt value = None ->
  ~ commitInvoked (trace r) /\ ~ invoked wp stageAllCmd (trace r) /\ final r = g.
Proof.
  intros r I B. subst r.
  destruct (basic_cycle_runs h wp g) as (g' & t & E & R).
  rewrite E in *. unfold trace, final, invoked in *; cbn [fst snd] in *.
  inversion R; subst; try (trace_cases I; differ I).
  all: assert (value = msg)
    by (trace_cases I; try solve [differ I]; injection I as I; now subst).
  all: subst value; try congruence.
  split; [|split; [|reflexivity]].
  - intros (cwd & cmd & J & C).
    trace_cases J; try discriminate J;
      apply same_command in J; subst cmd; discriminate C.
  - intros J. trace_cases J; differ J.
Qed.

(** C8 (the code departs from it): in the basic revision a prompt
    confirmed with empty text is taken as it is, and the commit is invoked
    with the empty string for its message, [git commit -m] followed by two
    double quotes; no default message is put in its place. *)
Theorem basic_commits_empty_message :
  let h := Sample.host (Sample.repo "" Sample.ok Sample.ok
                                    (ExecOk (nameListing ["a.ts"])))
                       Sample.clear true GroqError in
  let r := Basic.autoCommitAndPush h "/repo" initialGlobals in
  inputBox h basicPrompt "Update code" = Some ""
  /\ In (ShowInputBox basicPrompt "Update code") (trace r)
  /\ invoked "/repo" ("git commit -m " ++ quoted "") (trace r)
  /\ forall cwd cmd, In (Exec cwd cmd) (trace r) -> isCommitCmd cmd = true ->
                     cmd = String.append "git commit -m "
                             (String JS.DQUOTE (String JS.DQUOTE "")).
Proof.
  cbv zeta. split; [reflexivity|]. split; [|split].
  - vm_compute. do 3 right. left. reflexivity.
  - vm_compute. do 5 right. left. reflexivity.
  - intros cwd cmd J C. vm_compute in J.
    trace_cases J; try discriminate J;
      injection J as <- <-; first [reflexivity | discriminate C].
Qed.

(** ** Pausing, resuming, and a whole session *)

Lemma pause_suppresses_switches (h h' : Host) (editor : option Editor) (w : AI.World) :
  (dateNow h' < dateNow h + 3600000)%N ->
  let paused := final (AI.pauseAutoCommit h w) in
  AI.onDidChangeActiveTextEditor h' editor paused = (Done tt, paused, []).
Proof.
  intros L paused. destruct editor as [editor|]; [|reflexivity].
  apply ai_switch_while_paused.
  now apply isPaused_before_expiry with (dateNow h + 3600000)%N.
Qed.

Lemma resume_ends_pause (h : Host) (now : N) (w : AI.World) :
  isPaused now (AI.globals (final (AI.resumeAutoCommit (final (AI.pauseAutoCommit h w)))))
  = false.
Proof. reflexivity. Qed.

Lemma pause_expires (h : Host) (now : N) (w : AI.World) :
  (dateNow h + 3600000 <= now)%N ->
  isPaused now (AI.globals (final (AI.pauseAutoCommit h w))) = false.
Proof.
  intros L. unfold isPaused. cbn.
  apply andb_false_iff. right. apply N.ltb_ge. exact L.
Qed.

(** Save [a.ts], move to [b.ts]; one staged file, AI generation off, the
    proposed message accepted, pushing on. *)
Example session :
  let listing := Spec.nameListing ["a.ts"] in
  let h := Sample.host (Sample.repo listing Sample.ok Sample.ok (ExecOk listing))
                       Sample.accept true GroqError in
  let saved := final (AI.handleFileSave h {| fileName := "/repo/a.ts" |}
                                          (Sample.world initialGlobals)) in
  let r := AI.onDidChangeActiveTextEditor h (Some {| fileName := "/repo/b.ts" |}) saved in
  lastSavedFile (AI.globals saved) = Some "/repo/a.ts"
  /\ trace r
     = [Exec "/repo" statusCmd; Exec "/repo" conflictsCmd; Exec "/repo" stageAllCmd;
        Exec "/repo" stagedNamesCmd;
        ShowInputBox aiPrompt "chore: update a.ts";
        Exec "/repo" ("git commit -m " ++ quoted "chore: update a.ts");
        Exec "/repo" pushCmd; Exec "/repo" previousCmd;
        ShowInformationMessage "Committed & pushed! Today: 1 commits, 1 files"]
  /\ AI.globals (final r)
     = {| pausedUntil := None; sessionCommits := 1;
          sessionFilesCommitted := 1; lastSavedFile := None |}.
Proof. cbv zeta. repeat split; reflexivity. Qed.

(** The same switch with AI generation on, a key stored, and a completion
    response that is cut short: the handler never gets past the request,
    and the marker of the save stays. *)
Example stalled_session :
  let h := Sample.host (Sample.repo (Spec.nameListing ["a.ts"])
                                    Sample.ok Sample.ok Sample.ok)
                       Sample.accept true GroqCutShort in
  let w := Sample.keyed (Sample.saved "/repo/a.ts") in
  let r := AI.onDidChangeActiveTextEditor h (Some {| fileName := "/repo/b.ts" |}) w in
  result r = Pending
  /\ trace r
     = [Exec "/repo" statusCmd; Exec "/repo" conflictsCmd; Exec "/repo" stageAllCmd;
        Exec "/repo" stagedDiffCmd;
        GroqRequest "gsk_0123456789abcdef0123456789abcdef"
                    (AI.promptFor "diff --git a/a.ts b/a.ts")]
  /\ final r = w.
Proof. cbv zeta. repeat split; reflexivity. Qed.

(* ================================================================== *)
(** * Further properties of the code *)
(* ================================================================== *)

Import Terms.

(** ** The reply of the completion service *)



Lemma split_not_nil (sep : ascii) (s : string) : JS.split sep s <> [].
Proof.
  destruct s as [|c s]; cbn [JS.split]; [discriminate|].
  destruct (Ascii.eqb c sep); [discriminate|].
  destruct (JS.split sep s); discriminate.
Qed.






(** X2: of the four things that can become of the request, [callGroqAPI]
    resolves to no message on three: the request emits an error, the
    socket times out, or the response ends with a status other than 200
    or with a body that cannot be read, a status other than 200 winning
    over a body that holds a message.  On the fourth, a response cut
    short, it resolves to nothing at all. *)
Theorem callGroqAPI_unavailable (h : Host) (apiKey diff : string) (w : AI.World) :
  let reply := groq h apiKey (AI.promptFor diff) in
  let r := AI.callGroqAPI h apiKey diff w in
  (result r = Done None
   <-> (reply = GroqError \/ reply = GroqTimeout
        \/ exists status body,
             reply = GroqResponse status body
             /\ (status <> 200 \/ body = BodyThrows)))
  /\ (reply = GroqCutShort -> r = (Pending, w, [GroqRequest apiKey (AI.promptFor diff)])).
Proof.
  cbv zeta. unfold AI.callGroqAPI, bind, emit, ret, never, result.
  destruct (groq h apiKey (AI.promptFor diff)) as [| |status [|content]|];
    cbn [fst]; (split; [|try discriminate; reflexivity]);
    try (split; [auto|reflexivity]).
  - destruct (status =? 200); cbn [negb fst];
      (split; [intros _; right; right; exists status, BodyThrows; auto | reflexivity]).
  - destruct (Nat.eqb_spec status 200) as [E|E]; cbn [negb fst].
    + split; [discriminate|].
      intros [H|[H|(s' & b' & H & [N|B])]]; try discriminate H;
        injection H as <- <-; [contradiction | discriminate B].
    + split; [|reflexivity].
      intros _. right. right. exists status, (BodyContent content). auto.
  - split; [discriminate|].
    intros [H|[H|(s' & b' & H & _)]]; discriminate H.
Qed.

Lemma callGroqAPI_unavailable_witness :
  let h := Sample.host (Sample.repo "" Sample.ok Sample.ok Sample.ok)
                       Sample.accept true GroqCutShort in
  result (AI.callGroqAPI h "gsk_key" "diff" (Sample.keyed initialGlobals)) = Pending.
Proof.
  cbv zeta.
  rewrite (proj2 (callGroqAPI_unavailable
                    (Sample.host (Sample.repo "" Sample.ok Sample.ok Sample.ok)
                                 Sample.accept true GroqCutShort)
                    "gsk_key" "diff" (Sample.keyed initialGlobals))
                 eq_refl).
  reflexivity.
Defined.

(** X3: when the service answers 200 with a content whose first line
    holds [type(] at its start only, if at all, the message [callGroqAPI]
    resolves to has at most 72 characters and begins, whatever the case
    of its letters, with a conventional-commit type followed by [:] or
    [(]. *)
Theorem callGroqAPI_typed_reply (h : Host) (apiKey diff : string) (w : AI.World)
        (content : option string) :
  groq h apiKey (AI.promptFor diff) = GroqResponse 200 (BodyContent content) ->
  (forall t, In t AI.types ->
     JS.includes (t ++ "(")
       (hd "" (JS.split JS.LF (match content with Some c => JS.trim c | None => "" end)))
     = true ->
     JS.startsWith (t ++ "(")
       (JS.toLowerCase
          (hd "" (JS.split JS.LF
                    (match content with Some c => JS.trim c | None => "" end))))
     = true) ->
  exists msg,
    result (AI.callGroqAPI h apiKey diff w) = Done (Some msg) /\ acceptable (Some msg).
Proof.
  intros R H. exists (AI.postProcess content). split.
  - unfold AI.callGroqAPI, bind, emit, ret, result. rewrite R. reflexivity.
  - now apply postProcess_acceptable.
Qed.

Lemma callGroqAPI_typed_reply_witness :
  let content := Some ("  fix(parser): handle EOF" ++ String JS.LF "details")%string in
  let h := Sample.host (Sample.repo "" Sample.ok Sample.ok Sample.ok)
                       Sample.accept true (GroqResponse 200 (BodyContent content)) in
  exists msg,
    result (AI.callGroqAPI h "gsk_key" "diff" (Sample.keyed initialGlobals))
    = Done (Some msg) /\ acceptable (Some msg).
Proof.
  cbv zeta.
  apply (callGroqAPI_typed_reply
           (Sample.host (Sample.repo "" Sample.ok Sample.ok Sample.ok) Sample.accept true
              (GroqResponse 200
                 (BodyContent (Some ("  fix(parser): handle EOF"
                                     ++ String JS.LF "details")%string))))
           "gsk_key" "diff" (Sample.keyed initialGlobals)
           (Some ("  fix(parser): handle EOF" ++ String JS.LF "details")%string)).
  - reflexivity.
  - intros t I. cbv [AI.types] in I. cbn [In] in I.
    repeat (destruct I as [I|I]; [subst t; vm_compute; intros E; first [exact E | reflexivity]|]).
    destruct I.
Defined.

Lemma length_slice0_exact (n : nat) (s : string) :
  n <= String.length s -> String.length (JS.slice0 n s) = n.
Proof.
  unfold JS.slice0. revert s.
  induction n as [|n IH]; intros [|c s] L; cbn [substring String.length] in *;
    try reflexivity; try lia.
  rewrite IH; lia.
Qed.

Lemma slice0_all (s : string) : JS.slice0 (String.length s) s = s.
Proof.
  unfold JS.slice0. induction s as [|c s IH]; cbn [substring String.length];
    [reflexivity | now rewrite IH].
Qed.

Lemma slice0_append (a b : string) : JS.slice0 (String.length a) (a ++ b) = a.
Proof.
  unfold JS.slice0. induction a as [|c a IH]; cbn [substring String.length append].
  - destruct b; reflexivity.
  - now rewrite IH.
Qed.

Lemma endsWith_append (a p : string) : JS.endsWith p (a ++ p) = true.
Proof.
  unfold JS.endsWith. rewrite length_append.
  replace (String.length a + String.length p - String.length p)
    with (String.length a) by lia.
  apply andb_true_iff. split; [apply Nat.leb_le; lia|].
  apply String.eqb_eq.
  induction a as [|c a IH]; cbn [append String.length substring].
  - apply slice0_all.
  - exact IH.
Qed.

(** X4: a reply whose first line has more than 72 characters is cut: the
    resolved message has exactly 72 characters, the last three being the
    ellipsis marker, and its first 69 are the first 69 of that line, or of
    that line behind [chore: ] when the line shows no type. *)
Theorem long_reply_is_cut (content : option string) :
  let text := hd "" (JS.split JS.LF
                       (match content with Some c => JS.trim c | None => "" end)) in
  72 < String.length text ->
  String.length (AI.postProcess content) = 72
  /\ JS.endsWith "..." (AI.postProcess content) = true
  /\ (JS.slice0 69 (AI.postProcess content) = JS.slice0 69 text
      \/ JS.slice0 69 (AI.postProcess content) = JS.slice0 69 ("chore: " ++ text)).
Proof.
  intros text L.
  destruct (postProcess_shape content) as [[E _] | (typed & Y & C)].
  { fold text in E. rewrite E in L. cbn in L. lia. }
  fold text in Y.
  assert (T : 72 < String.length typed).
  { destruct Y as [-> | ->]; [exact L|]. rewrite length_append. lia. }
  destruct C as [[C _] | [_ ->]]; [lia|].
  assert (K : String.length (JS.slice0 69 typed) = 69)
    by (apply length_slice0_exact; lia).
  split; [rewrite length_append, K; reflexivity|].
  split; [apply endsWith_append|].
  assert (Z : JS.slice0 69 (JS.slice0 69 typed ++ "...") = JS.slice0 69 typed).
  { rewrite <- K at 1. apply slice0_append. }
  rewrite Z. destruct Y as [-> | ->]; auto.
Qed.

Lemma long_reply_is_cut_witness :
  let line := "feat: add a very long description of the change that goes on and on and on" in
  String.length (AI.postProcess (Some line)) = 72
  /\ JS.endsWith "..." (AI.postProcess (Some line)) = true.
Proof.
  cbv zeta.
  destruct (long_reply_is_cut
              (Some "feat: add a very long description of the change that goes on and on and on"))
    as (A & B & _).
  - vm_compute. lia.
  - split; assumption.
Defined.

(** ** What a cycle does and does not do *)

(** X5: with nothing to commit (a blank answer to the status query) a
    cycle of either revision ends after that one query: no other
    subprocess, no message, and the state as it was. *)
Theorem clean_tree_only_queries_status (h : Host) (wp out : string) :
  exec h wp statusCmd = ExecOk out ->
  JS.trim out = "" ->
  (forall g, Basic.autoCommitAndPush h wp g = (Done tt, g, [Exec wp statusCmd]))
  /\ (forall w, AI.autoCommitAndPush h wp w = (Done tt, w, [Exec wp statusCmd])).
Proof.
  intros E T. split.
  - intros g. unfold Basic.autoCommitAndPush, tryCatch.
    unfold bind at 1. unfold execAsync at 1. fold statusCmd.
    rewrite E, T. reflexivity.
  - intros w. unfold AI.autoCommitAndPush, tryCatch.
    unfold bind at 1. unfold execAsync at 1. fold statusCmd.
    rewrite E, T. reflexivity.
Qed.

Lemma clean_tree_only_queries_status_witness :
  let h := Sample.host (fun _ => ExecOk (String JS.LF "")) Sample.accept true GroqError in
  AI.autoCommitAndPush h "/repo" (Sample.world initialGlobals)
  = (Done tt, Sample.world initialGlobals, [Exec "/repo" statusCmd]).
Proof.
  cbv zeta.
  apply (proj2 (clean_tree_only_queries_status
                  (Sample.host (fun _ => ExecOk (String JS.LF "")) Sample.accept true
                               GroqError)
                  "/repo" (String JS.LF "") eq_refl eq_refl)).
Defined.

Lemma in_aiTrace_rest (wp msg : string) (t rest : list Event) (e : Event) :
  In e rest -> In e (aiTrace wp msg t rest).
Proof.
  intros I. unfold aiTrace. apply in_or_app. right. apply in_or_app. right.
  right. exact I.
Qed.

Lemma ai_counters (h : Host) (wp : string) (w : AI.World) :
  let r := AI.autoCommitAndPush h wp w in
  let g := AI.globals w in
  let g' := AI.globals (final r) in
  (sessionCommits g' = sessionCommits g
   /\ sessionFilesCommitted g' = sessionFilesCommitted g)
  \/ (sessionCommits g' = S (sessionCommits g)
      /\ sessionFilesCommitted g <= sessionFilesCommitted g'
      /\ committed h wp (trace r)).
Proof.
  cbv zeta.
  destruct (ai_cycle_runs h wp w) as (o & w' & t & E & R).
  rewrite E. unfold trace, final; cbn [fst snd].
  inversion R; subst; auto.
  all: drafting_facts G F.
  all: try (left; now rewrite G).
  all: right; split; [cbn; now rewrite G|]; split; [cbn; rewrite G; lia|];
    exists (aiCommitCmd um), out; split; [reflexivity|]; split; [|assumption];
    apply in_aiTrace_rest; left; reflexivity.
Qed.

Lemma basic_counters (h : Host) (wp : string) (g : Globals) :
  let r := Basic.autoCommitAndPush h wp g in
  let g' := final r in
  (sessionCommits g' = sessionCommits g
   /\ sessionFilesCommitted g' = sessionFilesCommitted g)
  \/ (sessionCommits g' = S (sessionCommits g)
      /\ sessionFilesCommitted g <= sessionFilesCommitted g'
      /\ committed h wp (trace r)).
Proof.
  cbv zeta.
  destruct (basic_cycle_runs h wp g) as (g' & t & E & R).
  rewrite E. unfold trace, final; cbn [fst snd].
  inversion R; subst; auto.
  all: right; split; [reflexivity|]; split; [cbn; lia|];
    exists (basicCommitCmd um), out; split; [reflexivity|]; split; [|assumption];
    apply in_or_app; right; right; left; reflexivity.
Qed.

(** X6: over a cycle of either revision the two session counters never go
    down, and the commit count goes up by one at most; either both keep
    their values, or the commit count is one more and a commit command has
    run and succeeded in that cycle. *)
Theorem counters_follow_commits (h : Host) (wp : string) :
  (forall g, let r := Basic.autoCommitAndPush h wp g in
     (sessionCommits (final r) = sessionCommits g
      /\ sessionFilesCommitted (final r) = sessionFilesCommitted g)
     \/ (sessionCommits (final r) = S (sessionCommits g)
         /\ sessionFilesCommitted g <= sessionFilesCommitted (final r)
         /\ committed h wp (trace r)))
  /\
  (forall w, let r := AI.autoCommitAndPush h wp w in
     (sessionCommits (AI.globals (final r)) = sessionCommits (AI.globals w)
      /\ sessionFilesCommitted (AI.globals (final r))
         = sessionFilesCommitted (AI.globals w))
     \/ (sessionCommits (AI.globals (final r)) = S (sessionCommits (AI.globals w))
         /\ sessionFilesCommitted (AI.globals w)
            <= sessionFilesCommitted (AI.globals (final r))
         /\ committed h wp (trace r))).
Proof.
  split; [intros g; apply basic_counters | intros w; apply ai_counters].
Qed.

(** Settles a membership of a commit command line in a trace: the events
    that are no commit are discarded, the commit is identified. *)
Ltac no_commit_drafted J C wp t F :=
  match type of J with
  | In (Exec ?cwd ?cmd) t =>
      let Q := fresh in
      destruct (drafting_exec wp cwd cmd t F J) as [_ Q];
      rewrite (commit_is_no_query cmd Q) in C; discriminate C
  end.

Ltac find_commit J C :=
  trace_cases J; try discriminate J;
  try (apply same_command in J; subst; discriminate C);
  try match goal with
      | D : aiDrafted _ ?wp _ _ _ ?t |- _ =>
          no_commit_drafted J C wp t (proj2 (aiDrafted_facts _ _ _ _ _ _ D))
      | D : aiStalled _ ?wp _ _ ?t |- _ =>
          no_commit_drafted J C wp t (proj2 (aiStalled_facts _ _ _ _ _ D))
      end.

Lemma ai_commit_confirmed (h : Host) (wp : string) (w : AI.World) (cwd cmd : string) :
  let t := trace (AI.autoCommitAndPush h wp w) in
  In (Exec cwd cmd) t -> isCommitCmd cmd = true ->
  cwd = wp
  /\ stageAllOk h wp
  /\ (exists value um,
         In (ShowInputBox aiPrompt value) t
         /\ inputBox h aiPrompt value = Some um /\ cmd = aiCommitCmd um)
  /\ before (Exec wp stageAllCmd) (Exec wp cmd) t.
Proof.
  cbv zeta. intros J C.
  destruct (ai_cycle_runs h wp w) as (o & w' & t & E & R).
  rewrite E in *. unfold trace in *; cbn [fst snd] in *.
  inversion R; subst; find_commit J C.
  all: injection J as <- <-.
  all: match goal with D : aiDrafted _ _ _ _ _ _ |- _ =>
         pose proof (proj1 (proj2 D)) as A end.
  all: split; [reflexivity|]; split; [exact A|]; split;
    [ exists msg, um; split; [|split; [assumption|reflexivity]];
      unfold aiTrace; apply in_or_app; right; apply in_or_app; right; left; reflexivity
    | exists [Exec wp statusCmd; Exec wp conflictsCmd], (t0 ++ [ShowInputBox aiPrompt msg]);
      eexists; unfold aiTrace; cbn [app]; rewrite <- app_assoc; reflexivity ].
Qed.

Lemma basic_commit_confirmed (h : Host) (wp : string) (g : Globals) (cwd cmd : string) :
  let t := trace (Basic.autoCommitAndPush h wp g) in
  In (Exec cwd cmd) t -> isCommitCmd cmd = true ->
  cwd = wp
  /\ stageAllOk h wp
  /\ (exists value um,
         In (ShowInputBox basicPrompt value) t
         /\ inputBox h basicPrompt value = Some um /\ cmd = basicCommitCmd um)
  /\ before (Exec wp stageAllCmd) (Exec wp cmd) t.
Proof.
  cbv zeta. intros J C.
  destruct (basic_cycle_runs h wp g) as (g' & t & E & R).
  rewrite E in *. unfold trace in *; cbn [fst snd] in *.
  inversion R; subst; find_commit J C.
  all: injection J as <- <-.
  all: split; [reflexivity|]; split; [assumption|]; split;
    [ exists msg, um; split; [|split; [assumption|reflexivity]];
      do 3 right; left; reflexivity
    | exists (basicUpToPrompt wp msg), []; eexists; reflexivity ].
Qed.

(** X7: a cycle of either revision invokes a commit only in its own
    working directory, only after [git add .] has run and succeeded, and
    only with the text the user confirmed at the prompt of that cycle. *)
Theorem commit_is_confirmed_and_staged (h : Host) (wp cwd cmd : string) :
  isCommitCmd cmd = true ->
  (forall g, let t := trace (Basic.autoCommitAndPush h wp g) in
     In (Exec cwd cmd) t ->
     cwd = wp /\ stageAllOk h wp
     /\ (exists value um,
            In (ShowInputBox basicPrompt value) t
            /\ inputBox h basicPrompt value = Some um /\ cmd = basicCommitCmd um)
     /\ before (Exec wp stageAllCmd) (Exec wp cmd) t)
  /\
  (forall w, let t := trace (AI.autoCommitAndPush h wp w) in
     In (Exec cwd cmd) t ->
     cwd = wp /\ stageAllOk h wp
     /\ (exists value um,
            In (ShowInputBox aiPrompt value) t
            /\ inputBox h aiPrompt value = Some um /\ cmd = aiCommitCmd um)
     /\ before (Exec wp stageAllCmd) (Exec wp cmd) t).
Proof.
  intros C. split.
  - intros g t J. now apply basic_commit_confirmed.
  - intros w t J. now apply ai_commit_confirmed.
Qed.

Lemma commit_is_confirmed_and_staged_witness :
  let h := Sample.host (Sample.repo (nameListing ["a.ts"]) Sample.ok Sample.ok
                                    (ExecOk (nameListing ["a.ts"])))
                       Sample.accept true GroqError in
  let t := trace (AI.autoCommitAndPush h "/repo" (Sample.world initialGlobals)) in
  before (Exec "/repo" stageAllCmd)
         (Exec "/repo" (aiCommitCmd "chore: update a.ts")) t.
Proof.
  cbv zeta.
  apply (proj2 (commit_is_confirmed_and_staged
                  (Sample.host (Sample.repo (nameListing ["a.ts"]) Sample.ok Sample.ok
                                            (ExecOk (nameListing ["a.ts"])))
                               Sample.accept true GroqError)
                  "/repo" "/repo" (aiCommitCmd "chore: update a.ts") eq_refl)
               (Sample.world initialGlobals)).
  vm_compute. do 5 right. left. reflexivity.
Defined.

Lemma ai_push_needs_commit (h : Host) (wp : string) (w : AI.World) :
  let t := trace (AI.autoCommitAndPush h wp w) in
  invoked wp pushCmd t ->
  cfgAutoPush h = true
  /\ exists cmd out,
       isCommitCmd cmd = true /\ exec h wp cmd = ExecOk out
       /\ before (Exec wp cmd) (Exec wp pushCmd) t.
Proof.
  cbv zeta. intros I.
  destruct (ai_cycle_runs h wp w) as (o & w' & t & E & R).
  rewrite E in *. unfold trace, invoked in *; cbn [fst snd] in *.
  inversion R; subst;
    try (trace_cases I; solve [differ I | not_drafted I]).
  all: assert (P : cfgAutoPush h = true)
    by (first [ assumption
              | destruct (cfgAutoPush h) eqn:P; [reflexivity|];
                exfalso; unfold pushEvents in I; rewrite P in I;
                trace_cases I; solve [differ I | not_drafted I] ]).
  all: split; [exact P|]; exists (aiCommitCmd um), out;
    split; [reflexivity|]; split; [assumption|];
    exists ([Exec wp statusCmd; Exec wp conflictsCmd; Exec wp stageAllCmd]
            ++ t0 ++ [ShowInputBox aiPrompt msg]), [];
    eexists; unfold aiTrace, pushEvents; rewrite ?P; cbn [app];
    rewrite <- ?app_assoc; cbn [app]; reflexivity.
Qed.

Lemma basic_push_needs_commit (h : Host) (wp : string) (g : Globals) :
  let t := trace (Basic.autoCommitAndPush h wp g) in
  invoked wp pushCmd t ->
  cfgAutoPush h = true
  /\ exists cmd out,
       isCommitCmd cmd = true /\ exec h wp cmd = ExecOk out
       /\ before (Exec wp cmd) (Exec wp pushCmd) t.
Proof.
  cbv zeta. intros I.
  destruct (basic_cycle_runs h wp g) as (g' & t & E & R).
  rewrite E in *. unfold trace, invoked in *; cbn [fst snd] in *.
  inversion R; subst;
    try (trace_cases I; solve [differ I]).
  all: assert (P : cfgAutoPush h = true)
    by (first [ assumption
              | destruct (cfgAutoPush h) eqn:P; [reflexivity|];
                exfalso; unfold pushEvents in I; rewrite P in I;
                trace_cases I; solve [differ I] ]).
  all: split; [exact P|]; exists (basicCommitCmd um), out;
    split; [reflexivity|]; split; [assumption|];
    exists (basicUpToPrompt wp msg ++ [Exec wp stageAllCmd]), [];
    eexists; unfold pushEvents; rewrite ?P; reflexivity.
Qed.

(** X8: a cycle of either revision pushes only when the setting
    [autoPush] is on, and only after a commit command of that cycle has
    succeeded. *)
Theorem push_needs_setting_and_commit (h : Host) (wp : string) :
  (forall g, let t := trace (Basic.autoCommitAndPush h wp g) in
     invoked wp pushCmd t ->
     cfgAutoPush h = true
     /\ exists cmd out,
          isCommitCmd cmd = true /\ exec h wp cmd = ExecOk out
          /\ before (Exec wp cmd) (Exec wp pushCmd) t)
  /\
  (forall w, let t := trace (AI.autoCommitAndPush h wp w) in
     invoked wp pushCmd t ->
     cfgAutoPush h = true
     /\ exists cmd out,
          isCommitCmd cmd = true /\ exec h wp cmd = ExecOk out
          /\ before (Exec wp cmd) (Exec wp pushCmd) t).
Proof.
  split; [intros g; apply basic_push_needs_commit | intros w; apply ai_push_needs_commit].
Qed.

Lemma push_needs_setting_and_commit_witness :
  let h := Sample.host (Sample.repo (nameListing ["a.ts"]) Sample.ok Sample.ok
                                    (ExecOk (nameListing ["a.ts"])))
                       Sample.accept true GroqError in
  let t := trace (AI.autoCommitAndPush h "/repo" (Sample.world initialGlobals)) in
  exists cmd out,
    isCommitCmd cmd = true /\ exec h "/repo" cmd = ExecOk out
    /\ before (Exec "/repo" cmd) (Exec "/repo" pushCmd) t.
Proof.
  cbv zeta.
  apply (proj2 (push_needs_setting_and_commit
                  (Sample.host (Sample.repo (nameListing ["a.ts"]) Sample.ok Sample.ok
                                            (ExecOk (nameListing ["a.ts"])))
                               Sample.accept true GroqError)
                  "/repo") (Sample.world initialGlobals)).
  vm_compute. do 6 right. left. reflexivity.
Defined.

(** X9: a cycle of either revision never touches the suppression window
    or the pending save marker: of the module-level variables it writes
    the two counters only. *)
Theorem cycle_keeps_window_and_marker (h : Host) (wp : string) :
  (forall g, let g' := final (Basic.autoCommitAndPush h wp g) in
     pausedUntil g' = pausedUntil g /\ lastSavedFile g' = lastSavedFile g)
  /\
  (forall w, let g' := AI.globals (final (AI.autoCommitAndPush h wp w)) in
     pausedUntil g' = pausedUntil (AI.globals w)
     /\ lastSavedFile g' = lastSavedFile (AI.globals w)).
Proof.
  split.
  - intros g. cbv zeta.
    destruct (basic_cycle_runs h wp g) as (g' & t & E & R).
    rewrite E. unfold final; cbn [fst snd].
    inversion R; subst; split; reflexivity.
  - intros w. cbv zeta.
    destruct (ai_cycle_runs h wp w) as (o & w' & t & E & R).
    rewrite E. unfold final; cbn [fst snd].
    inversion R; subst; try (split; reflexivity).
    all: drafting_facts G F.
    all: cbn; rewrite G; split; reflexivity.
Qed.

(** X10: a cycle of either revision runs [git add .] only after the
    status query has shown pending changes and the conflict listing has
    come back blank. *)
Theorem staging_needs_clean_probe (h : Host) (wp : string) :
  (forall g, invoked wp stageAllCmd (trace (Basic.autoCommitAndPush h wp g)) ->
             probed h wp)
  /\
  (forall w, invoked wp stageAllCmd (trace (AI.autoCommitAndPush h wp w)) ->
             probed h wp).
Proof.
  split.
  - intros g I.
    destruct (basic_cycle_runs h wp g) as (g' & t & E & R).
    rewrite E in *. unfold trace, invoked in *; cbn [fst snd] in *.
    inversion R; subst; try (trace_cases I; differ I).
    all: match goal with D : basicDrafted _ _ _ _ |- _ => exact (proj1 D) end.
  - intros w I.
    destruct (ai_cycle_runs h wp w) as (o & w' & t & E & R).
    rewrite E in *. unfold trace, invoked in *; cbn [fst snd] in *.
    inversion R; subst; try (trace_cases I; differ I); try assumption.
    all: match goal with
         | D : aiDrafted _ _ _ _ _ _ |- _ => exact (proj1 D)
         | D : aiStalled _ _ _ _ _ |- _ => exact (proj1 D)
         end.
Qed.

Lemma staging_needs_clean_probe_witness :
  probed (Sample.host (Sample.repo "" Sample.ok Sample.ok Sample.ok)
                      Sample.accept true GroqError) "/repo".
Proof.
  apply (proj2 (staging_needs_clean_probe
                  (Sample.host (Sample.repo "" Sample.ok Sample.ok Sample.ok)
                               Sample.accept true GroqError) "/repo")
               (Sample.world initialGlobals)).
  vm_compute. do 2 right. left. reflexivity.
Defined.







(** ** Saves, switches and the pause *)

(** X12: a save has no effect but on the pending save marker, and of two
    saves in a row the later tracked one is the one remembered: a save of
    a file that is not tracked (auto-commit off, or an extension outside
    [fileExtensions]) leaves the marker of an earlier save in place. *)
Theorem save_tracks_latest (h h' : Host) (d1 d2 : Editor) :
  (forall g,
     let r := Basic.handleFileSave h' d2 (final (Basic.handleFileSave h d1 g)) in
     result r = Done tt /\ trace r = []
     /\ pausedUntil (final r) = pausedUntil g
     /\ sessionCommits (final r) = sessionCommits g
     /\ sessionFilesCommitted (final r) = sessionFilesCommitted g
     /\ lastSavedFile (final r)
        = if tracked h' d2 then Some (fileName d2)
          else if tracked h d1 then Some (fileName d1)
          else lastSavedFile g)
  /\
  (forall w,
     let r := AI.handleFileSave h' d2 (final (AI.handleFileSave h d1 w)) in
     result r = Done tt /\ trace r = []
     /\ AI.secretKey (final r) = AI.secretKey w
     /\ AI.useAICommitMessages (final r) = AI.useAICommitMessages w
     /\ pausedUntil (AI.globals (final r)) = pausedUntil (AI.globals w)
     /\ sessionCommits (AI.globals (final r)) = sessionCommits (AI.globals w)
     /\ sessionFilesCommitted (AI.globals (final r))
        = sessionFilesCommitted (AI.globals w)
     /\ lastSavedFile (AI.globals (final r))
        = if tracked h' d2 then Some (fileName d2)
          else if tracked h d1 then Some (fileName d1)
          else lastSavedFile (AI.globals w)).
Proof.
  split.
  - intros g. cbv zeta. unfold Basic.handleFileSave, tracked.
    destruct (cfgAutoCommit h), (cfgAutoCommit h');
      cbn [negb andb];
      try destruct (existsb _ (cfgFileExtensions h));
      try destruct (existsb _ (cfgFileExtensions h'));
      repeat split.
  - intros w. cbv zeta. unfold AI.handleFileSave, tracked.
    destruct (cfgAutoCommit h), (cfgAutoCommit h');
      cbn [negb andb];
      try destruct (existsb _ (cfgFileExtensions h));
      try destruct (existsb _ (cfgFileExtensions h'));
      repeat split.
Qed.

(** X13: pausing at a time [t] suppresses exactly the times before
    [t] + 3600000 ms, in either revision, and changes nothing else;
    resuming ends the pause at once. *)
Theorem pause_window_is_one_hour (h : Host) (now : N) :
  (forall g,
     let g' := final (Basic.pauseAutoCommit h g) in
     isPaused now g' = (now <? dateNow h + 3600000)%N
     /\ lastSavedFile g' = lastSavedFile g
     /\ sessionCommits g' = sessionCommits g
     /\ sessionFilesCommitted g' = sessionFilesCommitted g
     /\ isPaused now (final (Basic.resumeAutoCommit g')) = false)
  /\
  (forall w,
     let w' := final (AI.pauseAutoCommit h w) in
     isPaused now (AI.globals w') = (now <? dateNow h + 3600000)%N
     /\ lastSavedFile (AI.globals w') = lastSavedFile (AI.globals w)
     /\ sessionCommits (AI.globals w') = sessionCommits (AI.globals w)
     /\ sessionFilesCommitted (AI.globals w') = sessionFilesCommitted (AI.globals w)
     /\ isPaused now (AI.globals (final (AI.resumeAutoCommit w'))) = false).
Proof.
  assert (Z : N.eqb (dateNow h + 3600000) 0 = false) by (apply N.eqb_neq; lia).
  split.
  - intros g. cbv zeta. repeat split.
    unfold isPaused. cbn [Basic.pauseAutoCommit]. cbn.
    change (60 * 60 * 1000)%N with 3600000%N in *.
    now rewrite Z.
  - intros w. cbv zeta. repeat split.
    unfold isPaused. cbn. now rewrite Z.
Qed.



(** ** The message generators *)

Section Requests.
Variable h : Host.
Variable wp : string.

Lemma askService_requests (w : AI.World) :
  truthyOpt (AI.secretKey w) = true ->
  boundedRequests h wp (trace
          (tryCatch
             (bind (execAsync h wp "git diff --cached")
                (fun diff =>
                   if negb (JS.truthy (JS.trim diff)) then ret None
                   else AI.callGroqAPI h
                          (match AI.secretKey w with Some k => k | None => "" end)
                          (JS.slice0 1500 diff)))
             (fun _ => ret None) w)).
Proof.
  intros K. unfold boundedRequests, tryCatch, bind, execAsync, ret, trace.
  fold stagedDiffCmd.
  destruct (exec h wp stagedDiffCmd) as [diff|e] eqn:E.
  - destruct (JS.truthy (JS.trim diff)) eqn:T; cbn [negb].
    + destruct (callGroqAPI_ends h
                  (match AI.secretKey w with Some k => k | None => "" end)
                  (JS.slice0 1500 diff) w) as (o & -> & _).
      destruct o as [r|e|]; cbn [snd app countRequests]; (split; [|lia]);
        repeat constructor;
        try (destruct (AI.secretKey w) as [[|c k]|]; discriminate);
        (exists diff; split; [exact E|]; split; [now apply truthy_true_iff|];
         split; [reflexivity | apply length_slice0]).
    + cbn. split; [repeat constructor | lia].
  - cbn. split; [repeat constructor | lia].
Qed.

Lemma setGroqAPIKey_requests (reply : option string) (w : AI.World) :
  exists w' t, AI.setGroqAPIKey reply w = (Done tt, w', t)
               /\ Forall (wellFormedRequest h wp) t /\ countRequests t = 0.
Proof.
  unfold AI.setGroqAPIKey, bind, emit, ret, modify.
  destruct (AI.keyBoxResult reply) as [k|]; [destruct (JS.truthy k)|];
    do 2 eexists; (split; [reflexivity|]); cbn; split; repeat constructor.
Qed.

Lemma countRequests_app (a b : list Event) :
  countRequests (a ++ b) = countRequests a + countRequests b.
Proof.
  induction a as [|x a IH]; [reflexivity|].
  destruct x; cbn [app countRequests]; rewrite IH; reflexivity.
Qed.

Lemma generateAICommitMessage_requests (replies : list SetupReply) (w : AI.World) :
  boundedRequests h wp (trace (AI.generateAICommitMessage h wp replies w)).
Proof.
  revert w. induction replies as [|reply replies IH]; intros w;
    cbn [AI.generateAICommitMessage]; unfold bind at 1; unfold get;
    destruct (truthyOpt (AI.secretKey w)) eqn:K; cbn [negb];
    try (destruct (askService_requests w K) as [F C];
         destruct (tryCatch _ _ w) as [[r w'] t]; unfold boundedRequests, trace in *;
         cbn [snd app] in *; split; assumption).
  - unfold boundedRequests. cbn. split; [repeat constructor | lia].
  - destruct reply as [key| | |];
      try (unfold boundedRequests; cbn; split; [repeat constructor | lia]).
    unfold bind at 1. unfold emit. unfold bind at 1.
    destruct (setGroqAPIKey_requests key w) as (w1 & t1 & -> & F1 & C1).
    specialize (IH w1). unfold boundedRequests, trace in *.
    destruct (AI.generateAICommitMessage h wp replies w1) as [[r w2] t2].
    cbn [snd app] in *. destruct IH as [F2 C2]. split.
    + constructor; [exact I|]. apply Forall_app. split; assumption.
    + cbn [countRequests]. rewrite countRequests_app. lia.
Qed.

End Requests.

(** X15: while drafting, the AI-enabled generator asks the completion
    service once at most, and only under a key that is not empty, with a
    prompt built from the first 1500 characters, at most, of a staged diff
    that is not blank. *)
Theorem generator_requests_are_bounded (h : Host) (wp : string) (w : AI.World) :
  let t := trace (AI.generateCommitMessage h wp w) in
  Forall (wellFormedRequest h wp) t /\ countRequests t <= 1.
Proof.
  cbv zeta.
  assert (G : exists o w' t,
             AI.generateCommitMessage h wp w = (o, w', t)
             /\ Forall (wellFormedRequest h wp) t /\ countRequests t <= 1).
  { unfold AI.generateCommitMessage. unfold bind at 1. unfold get. unfold bind at 1.
    assert (A : exists o w1 t1,
               (if AI.useAICommitMessages w
                then AI.generateAICommitMessage h wp (setupReplies h)
                else ret None) w = (o, w1, t1)
               /\ Forall (wellFormedRequest h wp) t1 /\ countRequests t1 <= 1).
    { destruct (AI.useAICommitMessages w).
      - pose proof (generateAICommitMessage_requests h wp (setupReplies h) w) as F.
        unfold boundedRequests, trace in F.
        destruct (AI.generateAICommitMessage h wp (setupReplies h) w) as [[o w1] t1].
        exists o, w1, t1. split; [reflexivity | exact F].
      - do 3 eexists. split; [reflexivity|]. cbn. split; [constructor | lia]. }
    destruct A as ([ai|e|] & w1 & t1 & -> & F & C).
    - destruct (truthyOpt ai).
      + do 3 eexists. split; [reflexivity|]. cbn [app]. rewrite app_nil_r.
        split; assumption.
      + destruct (ruleBasedMessage_returns h wp w1) as [msg ->].
        do 3 eexists. split; [reflexivity|]. cbn [app]. split.
        * apply Forall_app. split; [exact F | repeat constructor].
        * rewrite countRequests_app. cbn. lia.
    - do 3 eexists. split; [reflexivity|]. cbn [app]. split; assumption.
    - do 3 eexists. split; [reflexivity|]. cbn [app]. split; assumption. }
  destruct G as (o & w' & t & -> & F & C). split; assumption.
Qed.

Lemma ruleBasedMessage_anywhere (h : Host) (wp : string) (w w' : AI.World) :
  exists msg,
    AI.ruleBasedMessage h wp w = (Done msg, w, [Exec wp stagedNamesCmd])
    /\ AI.ruleBasedMessage h wp w' = (Done msg, w', [Exec wp stagedNamesCmd])
    /\ msg <> "".
Proof.
  destruct (exec h wp stagedNamesCmd) as [out|e] eqn:E.
  - eexists. split; [apply ruleBasedMessage_on_listing; exact E|].
    split; [apply ruleBasedMessage_on_listing; exact E|].
    intros N. pose proof (fallbackRule_usable (path_basename h) (JS.lines out)) as U.
    rewrite N in U. discriminate U.
  - exists "chore: update".
    split; [exact (ruleBasedMessage_on_failure h wp w e E)|].
    split; [exact (ruleBasedMessage_on_failure h wp w' e E) | discriminate].
Qed.

(** X16: what happens when AI generation is on and no key is stored.
    The user is asked once in the cycle; on 'Disable AI' the setting is
    switched off, the rule-based message is used, and later cycles
    neither ask nor query the service; on 'No', or when the question is
    dismissed, the rule-based message is used and nothing is remembered,
    so the next cycle asks again. *)
Theorem missing_key_answers (h : Host) (wp : string) (w : AI.World) :
  truthyOpt (AI.secretKey w) = false ->
  AI.useAICommitMessages w = true ->
  exists msg,
    AI.ruleBasedMessage h wp w = (Done msg, w, [Exec wp stagedNamesCmd])
    /\ (forall rest, setupReplies h = SetupDisableAI :: rest ->
          AI.generateCommitMessage h wp w
          = (Done msg, AI.updateUseAI false w, [AskSetup; Exec wp stagedNamesCmd])
          /\ forall h', AI.generateCommitMessage h' wp (AI.updateUseAI false w)
                        = AI.ruleBasedMessage h' wp (AI.updateUseAI false w))
    /\ (forall rest,
          setupReplies h = [] \/ setupReplies h = SetupNo :: rest
          \/ setupReplies h = SetupDismissed :: rest ->
          AI.generateCommitMessage h wp w
          = (Done msg, w, [AskSetup; Exec wp stagedNamesCmd])).
Proof.
  intros K U.
  destruct (ruleBasedMessage_anywhere h wp w (AI.updateUseAI false w))
    as (msg & E1 & E2 & _).
  exists msg. split; [exact E1|]. split.
  - intros rest R. split.
    + unfold AI.generateCommitMessage. unfold bind at 1. unfold get.
      rewrite U, R. cbn [AI.generateAICommitMessage].
      unfold bind at 1. unfold bind at 1. unfold get. rewrite K. cbn [negb].
      unfold bind at 1. unfold emit. unfold bind at 1. unfold modify, ret.
      cbn [truthyOpt app]. rewrite E2. reflexivity.
    + intros h'. apply generateCommitMessage_without_AI. reflexivity.
  - intros rest R.
    unfold AI.generateCommitMessage. unfold bind at 1. unfold get. rewrite U.
    assert (A : AI.generateAICommitMessage h wp (setupReplies h) w
                = (Done None, w, [AskSetup])).
    { destruct R as [R|[R|R]]; rewrite R; cbn [AI.generateAICommitMessage];
        unfold bind at 1; unfold get; rewrite K; reflexivity. }
    unfold bind. rewrite A. cbn [truthyOpt]. rewrite E1. reflexivity.
Qed.

Lemma missing_key_answers_witness :
  let h := Sample.host (Sample.repo (nameListing ["a.ts"]) Sample.ok Sample.ok Sample.ok)
                       Sample.accept true GroqError in
  let w := {| AI.globals := initialGlobals; AI.secretKey := None;
              AI.useAICommitMessages := true |} in
  AI.generateCommitMessage h "/repo" w
  = (Done "chore: update a.ts", w, [AskSetup; Exec "/repo" stagedNamesCmd]).
Proof.
  cbv zeta.
  destruct (missing_key_answers
              (Sample.host (Sample.repo (nameListing ["a.ts"]) Sample.ok Sample.ok
                                        Sample.ok) Sample.accept true GroqError)
              "/repo"
              {| AI.globals := initialGlobals; AI.secretKey := None;
                 AI.useAICommitMessages := true |} eq_refl eq_refl)
    as (msg & E & _ & N).
  injection E as <-.
  apply (N []). left. reflexivity.
Defined.













(** ** The manual command *)

Lemma ai_cycle_cwd (h : Host) (wp : string) (w : AI.World) (cwd cmd : string) :
  In (Exec cwd cmd) (trace (AI.autoCommitAndPush h wp w)) -> cwd = wp.
Proof.
  intros J.
  destruct (ai_cycle_runs h wp w) as (o & w' & t & E & R).
  rewrite E in *. unfold trace in *; cbn [fst snd] in *.
  inversion R; subst; trace_cases J; try discriminate J;
    try (injection J as <- _; reflexivity).
  all: drafting_facts G F; exact (proj1 (drafting_exec wp cwd cmd _ F J)).
Qed.

Lemma basic_cycle_cwd (h : Host) (wp : string) (g : Globals) (cwd cmd : string) :
  In (Exec cwd cmd) (trace (Basic.autoCommitAndPush h wp g)) -> cwd = wp.
Proof.
  intros J.
  destruct (basic_cycle_runs h wp g) as (g' & t & E & R).
  rewrite E in *. unfold trace in *; cbn [fst snd] in *.
  inversion R; subst; trace_cases J; try discriminate J;
    injection J as <- _; reflexivity.
Qed.

(** X19: the manual command works on the first workspace folder only.
    In the AI-enabled revision, without a workspace folder, or with a
    first folder that holds no [.git] entry, it shows one error and runs
    nothing; otherwise every subprocess it runs has that first folder for
    working directory.  In the basic revision an empty list of folders
    makes the command throw, and the [.git] entry is not looked for. *)
Theorem manual_commit_folder (h : Host) :
  (forall w, workspaceFolders h = None \/ workspaceFolders h = Some [] ->
     AI.manualCommit h w = (Done tt, w, [ShowErrorMessage "No workspace folder."]))
  /\
  (forall w folder others,
     workspaceFolders h = Some (folder :: others) ->
     AI.isGitRepository h folder = false ->
     AI.manualCommit h w = (Done tt, w, [ShowErrorMessage "Not a git repo."]))
  /\
  (forall w folder others cwd cmd,
     workspaceFolders h = Some (folder :: others) ->
     In (Exec cwd cmd) (trace (AI.manualCommit h w)) ->
     cwd = folder /\ AI.isGitRepository h folder = true)
  /\
  (forall g, workspaceFolders h = Some [] ->
     exists e, Basic.manualCommit h g = (Thrown e, g, []))
  /\
  (forall g folder others cwd cmd,
     workspaceFolders h = Some (folder :: others) ->
     In (Exec cwd cmd) (trace (Basic.manualCommit h g)) ->
     cwd = folder).
Proof.
  split; [|split; [|split; [|split]]].
  - intros w [F|F]; unfold AI.manualCommit; rewrite F; reflexivity.
  - intros w folder others F G. unfold AI.manualCommit. rewrite F, G. reflexivity.
  - intros w folder others cwd cmd F J. unfold AI.manualCommit in J. rewrite F in J.
    destruct (AI.isGitRepository h folder); cbn [negb] in J.
    + split; [|reflexivity]. now apply ai_cycle_cwd in J.
    + destruct J as [J|[]]. discriminate J.
  - intros g F. unfold Basic.manualCommit. rewrite F. eexists. reflexivity.
  - intros g folder others cwd cmd F J. unfold Basic.manualCommit in J. rewrite F in J.
    now apply basic_cycle_cwd in J.
Qed.

Lemma manual_commit_folder_witness :
  let h := Sample.host (Sample.repo "" Sample.ok Sample.ok Sample.ok)
                       Sample.accept true GroqError in
  AI.isGitRepository h "/repo" = true.
Proof.
  cbv zeta.
  apply (proj1 (proj2 (proj2 (manual_commit_folder
           (Sample.host (Sample.repo "" Sample.ok Sample.ok Sample.ok)
                        Sample.accept true GroqError))))
           (Sample.world initialGlobals) "/repo" [] "/repo" statusCmd eq_refl).
  vm_compute. left. reflexivity.
Defined.

(** ** Quoting the message, showing the key *)

Lemma escapeQuotes_escaped (s : string) (b : bool) :
  quotesEscaped b (JS.escapeQuotes s) = true.
Proof.
  revert b. induction s as [|c s IH]; intros b; [reflexivity|].
  cbn [JS.escapeQuotes].
  destruct (Ascii.eqb c JS.DQUOTE) eqn:Q.
  - cbn [quotesEscaped].
    replace (Ascii.eqb "\" JS.DQUOTE) with false by reflexivity.
    replace (Ascii.eqb "\" "\") with true by reflexivity.
    replace (Ascii.eqb JS.DQUOTE JS.DQUOTE) with true by reflexivity.
    cbn [andb]. apply IH.
  - cbn [quotesEscaped]. rewrite Q. cbn [andb]. apply IH.
Qed.

(** X20: [replace(/"/g, '\\"')] as used on the commit message: in the
    result every double quote comes right after a backslash, no quote is
    lost or added, and the text grows by one character per quote. *)
Theorem escapeQuotes_guards_quotes (s : string) :
  quotesEscaped false (JS.escapeQuotes s) = true
  /\ countQuotes (JS.escapeQuotes s) = countQuotes s
  /\ String.length (JS.escapeQuotes s) = String.length s + countQuotes s.
Proof.
  split; [apply escapeQuotes_escaped|].
  split.
  - induction s as [|c s IH]; [reflexivity|].
    cbn [JS.escapeQuotes countQuotes].
    destruct (Ascii.eqb c JS.DQUOTE) eqn:Q; cbn [countQuotes].
    + replace (Ascii.eqb "\" JS.DQUOTE) with false by reflexivity.
      replace (Ascii.eqb JS.DQUOTE JS.DQUOTE) with true by reflexivity.
      now rewrite IH.
    + now rewrite Q, IH.
  - induction s as [|c s IH]; [reflexivity|].
    cbn [JS.escapeQuotes countQuotes String.length].
    destruct (Ascii.eqb c JS.DQUOTE); cbn [String.length]; rewrite IH; lia.
Qed.

Lemma prefix_slice0_self (n : nat) (s : string) : prefix (JS.slice0 n s) s = true.
Proof.
  unfold JS.slice0. revert s.
  induction n as [|n IH]; intros [|c s]; cbn [substring prefix]; try reflexivity.
  destruct (ascii_dec c c); [apply IH | congruence].
Qed.

(** X21: the key test command changes nothing and shows one message:
    a warning when no key is stored, and otherwise the first ten
    characters of the key, no more, followed by an ellipsis. *)
Theorem testGroqAPI_shows_ten (w : AI.World) :
  exists e,
    AI.testGroqAPI w = (Done tt, w, [e])
    /\ match AI.secretKey w with
       | Some (String c k) =>
           exists shown,
             e = ShowInformationMessage ("Groq key: " ++ shown ++ "...")
             /\ String.length shown <= 10
             /\ prefix shown (String c k) = true
       | _ => e = ShowWarningMessage "No Groq key found"
       end.
Proof.
  unfold AI.testGroqAPI, bind, get, emit.
  destruct (AI.secretKey w) as [[|c k]|]; cbn [truthyOpt JS.truthy];
    eexists; (split; [reflexivity|]); try reflexivity.
  exists (JS.slice0 10 (String c k)). split; [reflexivity|].
  split; [apply length_slice0 | apply prefix_slice0_self].
Qed.

(** ** Supplying the key *)

Lemma validGroqKey_truthy (k : string) : AI.validGroqKey k = true -> JS.truthy k = true.
Proof.
  unfold AI.validGroqKey. intros V. apply andb_true_iff in V as [_ L].
  destruct k; [discriminate L | reflexivity].
Qed.

(** X22: the key command stores a key only if the input box, which
    enforces [validateInput], returned one: the stored secret is then
    that key, it starts with [gsk_] and has more than 30 characters, and
    the user is told; otherwise the secret is as before and nothing is
    said.  Nothing else of the state changes either way. *)
Theorem setGroqAPIKey_stores_valid_keys (reply : option string) (w : AI.World) :
  let r := AI.setGroqAPIKey reply w in
  result r = Done tt
  /\ AI.globals (final r) = AI.globals w
  /\ AI.useAICommitMessages (final r) = AI.useAICommitMessages w
  /\ ((exists k, reply = Some k /\ AI.validGroqKey k = true
                 /\ JS.startsWith "gsk_" k = true /\ 30 < String.length k
                 /\ AI.secretKey (final r) = Some k
                 /\ trace r = [AskKey; ShowInformationMessage "Groq API key saved!"])
      \/ (AI.keyBoxResult reply = None /\ final r = w /\ trace r = [AskKey])).
Proof.
  cbv zeta. unfold AI.setGroqAPIKey, bind, emit, ret, modify, AI.keyBoxResult.
  destruct reply as [k|]; [|repeat split; right; repeat split].
  destruct (AI.validGroqKey k) eqn:V; [|repeat split; right; repeat split].
  rewrite (validGroqKey_truthy k V).
  repeat split. left. exists k.
  pose proof V as V'. unfold AI.validGroqKey in V'.
  apply andb_true_iff in V' as [P L]. apply Nat.ltb_lt in L.
  repeat split; assumption.
Qed.

Lemma keyed_ignores_replies (h : Host) (wp : string) (replies : list SetupReply)
      (w : AI.World) :
  truthyOpt (AI.secretKey w) = true ->
  AI.generateAICommitMessage h wp replies w = AI.generateAICommitMessage h wp [] w.
Proof.
  intros K. destruct replies as [|reply replies]; [reflexivity|].
  cbn [AI.generateAICommitMessage]. unfold bind, get. rewrite K. cbn [negb].
  reflexivity.
Qed.

(** X23: answering 'Yes' to the missing-key question.  With a valid key
    entered, the key is stored and drafting goes on at once as it does
    with a stored key, without asking again; with the input box
    cancelled, nothing is stored and the question is asked again. *)
Theorem yes_answer_retries (h : Host) (wp : string) (w : AI.World)
        (rest : list SetupReply) :
  truthyOpt (AI.secretKey w) = false ->
  (forall k, AI.validGroqKey k = true ->
     let keyed := AI.generateAICommitMessage h wp [] (AI.storeSecret k w) in
     AI.generateAICommitMessage h wp (SetupYes (Some k) :: rest) w
     = (result keyed, final keyed,
        [AskSetup; AskKey; ShowInformationMessage "Groq API key saved!"] ++ trace keyed))
  /\
  (let again := AI.generateAICommitMessage h wp rest w in
   AI.generateAICommitMessage h wp (SetupYes None :: rest) w
   = (result again, final again, [AskSetup; AskKey] ++ trace again)
   /\ exists more, trace again = AskSetup :: more).
Proof.
  intros K. split.
  - intros k V. cbv zeta.
    remember (AI.generateAICommitMessage h wp [] (AI.storeSecret k w)) as keyed eqn:Ek.
    cbn [AI.generateAICommitMessage]. unfold bind at 1. unfold get. rewrite K.
    cbn [negb]. unfold bind at 1. unfold emit. unfold bind at 1.
    unfold AI.setGroqAPIKey, AI.keyBoxResult. rewrite V, (validGroqKey_truthy k V).
    unfold bind at 1. unfold emit. unfold bind at 1. unfold modify. cbn [app].
    fold (@emit AI.World).
    rewrite (keyed_ignores_replies h wp rest (AI.storeSecret k w)).
    2:{ cbn. now apply validGroqKey_truthy. }
    rewrite <- Ek. destruct keyed as [[[r|e|] w2] t]; reflexivity.
  - cbv zeta.
    remember (AI.generateAICommitMessage h wp rest w) as again eqn:Ea.
    split.
    + cbn [AI.generateAICommitMessage]. unfold bind at 1. unfold get. rewrite K.
      cbn [negb]. unfold bind at 1. unfold emit. unfold bind at 1.
      unfold AI.setGroqAPIKey, AI.keyBoxResult.
      unfold bind at 1. unfold emit. unfold ret at 1. cbn [app].
      fold (@emit AI.World).
      rewrite <- Ea. destruct again as [[[r|e|] w2] t]; reflexivity.
    + subst again. destruct rest as [|reply rest']; cbn [AI.generateAICommitMessage];
        unfold bind at 1; unfold get; rewrite K; cbn [negb].
      * eexists. reflexivity.
      * unfold bind at 1. unfold emit.
        destruct reply as [key| | |].
        -- unfold bind at 1.
           destruct (setGroqAPIKey_returns wp key w) as (w1 & t1 & -> & _).
           destruct (generateAICommitMessage_ends h wp rest' w1) as (o & w2 & t & -> & _).
           eexists. reflexivity.
        -- eexists. reflexivity.
        -- eexists. reflexivity.
        -- eexists. reflexivity.
Qed.

Lemma yes_answer_retries_witness :
  let key := "gsk_0123456789abcdef0123456789abcdef" in
  let h := Sample.host (Sample.repo "" Sample.ok Sample.ok Sample.ok)
                       Sample.accept true GroqError in
  AI.secretKey
    (final (AI.generateAICommitMessage h "/repo" [SetupYes (Some key)]
              {| AI.globals := initialGlobals; AI.secretKey := None;
                 AI.useAICommitMessages := true |}))
  = Some key.
Proof.
  cbv zeta.
  rewrite (proj1 (yes_answer_retries
                    (Sample.host (Sample.repo "" Sample.ok Sample.ok Sample.ok)
                                 Sample.accept true GroqError)
                    "/repo"
                    {| AI.globals := initialGlobals; AI.secretKey := None;
                       AI.useAICommitMessages := true |} [] eq_refl)
                 "gsk_0123456789abcdef0123456789abcdef" eq_refl).
  reflexivity.
Defined.

(** ** What a change of active file may run, what a summary tells *)

(** X24: a change of active file runs a subprocess only if it qualifies
    (a save is pending for another file, the window is not active, the
    file has a workspace folder with a [.git] entry), and then only in
    that workspace folder. *)
Theorem switch_runs_in_workspace_folder (h : Host) (editor : Editor) (cwd cmd : string) :
  (forall g, In (Exec cwd cmd) (trace (Basic.handleFileSwitch h (Some editor) g)) ->
     qualifies h (fileName editor) g
     /\ getWorkspaceFolder h (fileName editor) = Some cwd)
  /\
  (forall w, In (Exec cwd cmd) (trace (AI.handleFileSwitch h editor w)) ->
     qualifies h (fileName editor) (AI.globals w)
     /\ getWorkspaceFolder h (fileName editor) = Some cwd).
Proof.
  split.
  - intros g J.
    destruct (rejected_or_qualifies h editor g) as [R|Q].
    { rewrite (basic_switch_rejected h editor g R) in J. destruct J. }
    split; [exact Q|].
    destruct Q as (T & P & L & folder & F & X).
    unfold Basic.handleFileSwitch in J. unfold bind at 1 in J. unfold get in J.
    rewrite T, P in J. cbn [negb] in J.
    destruct (String.eqb (fileName editor) _) in J; [destruct J|].
    rewrite F in J. unfold Basic.isGitRepository in J. rewrite X in J. cbn [negb] in J.
    unfold bind, modify in J.
    pose proof (basic_cycle_cwd h folder g cwd cmd) as W.
    destruct (Basic.autoCommitAndPush h folder g) as [[[u|e|] g'] t];
      unfold trace in *; cbn [snd] in *.
    + rewrite app_nil_r in J. now rewrite (W J).
    + now rewrite (W J).
    + now rewrite (W J).
  - intros w J.
    destruct (rejected_or_qualifies h editor (AI.globals w)) as [R|Q].
    { rewrite (ai_switch_rejected h editor w R) in J. destruct J. }
    split; [exact Q|].
    destruct Q as (T & P & L & folder & F & X).
    unfold AI.handleFileSwitch in J. unfold bind at 1 in J. unfold get in J.
    rewrite T, P in J. cbn [negb orb] in J.
    destruct (String.eqb (fileName editor) _) in J; [destruct J|].
    rewrite F in J. unfold AI.isGitRepository in J. rewrite X in J. cbn [negb] in J.
    unfold bind, modify in J.
    pose proof (ai_cycle_cwd h folder w cwd cmd) as W.
    destruct (AI.autoCommitAndPush h folder w) as [[[u|e|] w'] t];
      unfold trace in *; cbn [snd] in *.
    + rewrite app_nil_r in J. now rewrite (W J).
    + now rewrite (W J).
    + now rewrite (W J).
Qed.

Lemma switch_runs_in_workspace_folder_witness :
  let h := Sample.host (Sample.repo "" Sample.ok Sample.ok Sample.ok)
                       Sample.accept true GroqError in
  getWorkspaceFolder h "/repo/b.ts" = Some "/repo".
Proof.
  cbv zeta.
  apply (proj2 (switch_runs_in_workspace_folder
                  (Sample.host (Sample.repo "" Sample.ok Sample.ok Sample.ok)
                               Sample.accept true GroqError)
                  {| fileName := "/repo/b.ts" |} "/repo" statusCmd)
               (Sample.world (Sample.saved "/repo/a.ts"))).
  vm_compute. left. reflexivity.
Defined.

Lemma ai_summary (h : Host) (wp : string) (w : AI.World) :
  let r := AI.autoCommitAndPush h wp w in
  summaryReported (trace r) ->
  exists pre files,
    exec h wp previousCmd = ExecOk files
    /\ trace r = pre ++ [Exec wp previousCmd; aiSummary h (final r)]
    /\ sessionCommits (AI.globals (final r)) = S (sessionCommits (AI.globals w))
    /\ sessionFilesCommitted (AI.globals (final r))
       = sessionFilesCommitted (AI.globals w) + List.length (JS.lines files).
Proof.
  cbv zeta. intros (m & J & C).
  destruct (ai_cycle_runs h wp w) as (o & w' & t & E & R).
  rewrite E in *. unfold trace, final in *; cbn [fst snd] in *.
  inversion R; subst.
  all: try drafting_facts G F.
  all: try (exfalso; trace_cases J; try discriminate J;
            try (injection J as <-; discriminate C);
            apply (drafting_info wp m _ F) in J; subst m; discriminate C).
  exists ([Exec wp statusCmd; Exec wp conflictsCmd; Exec wp stageAllCmd]
          ++ t0 ++ [ShowInputBox aiPrompt msg; Exec wp (aiCommitCmd um)]
          ++ pushEvents h wp), files.
  split; [assumption|].
  split; [unfold aiTrace; rewrite <- !app_assoc; reflexivity|].
  subst w2. cbn. rewrite G. split; reflexivity.
Qed.

Lemma basic_summary (h : Host) (wp : string) (g : Globals) :
  let r := Basic.autoCommitAndPush h wp g in
  summaryReported (trace r) ->
  exists pre files,
    exec h wp previousCmd = ExecOk files
    /\ trace r = pre ++ [Exec wp previousCmd; basicSummary (final r)]
    /\ sessionCommits (final r) = S (sessionCommits g)
    /\ sessionFilesCommitted (final r)
       = sessionFilesCommitted g + List.length (JS.lines files).
Proof.
  cbv zeta. intros (m & J & C).
  destruct (basic_cycle_runs h wp g) as (g' & t & E & R).
  rewrite E in *. unfold trace, final in *; cbn [fst snd] in *.
  inversion R; subst.
  all: try (exfalso; trace_cases J; try discriminate J;
            injection J as <-; discriminate C).
  exists (basicUpToPrompt wp msg ++ [Exec wp stageAllCmd; Exec wp (basicCommitCmd um)]
          ++ pushEvents h wp), files.
  split; [assumption|].
  split; [rewrite <- !app_assoc; reflexivity|].
  subst g2. split; reflexivity.
Qed.

(** X25: a summary is shown only by a cycle whose diff against the
    previous commit succeeded; it is the last thing the cycle does, and
    it tells the counters as the cycle leaves them: one commit more, and
    as many files more as that diff lists names. *)
Theorem summary_tells_counters (h : Host) (wp : string) :
  (forall g, let r := Basic.autoCommitAndPush h wp g in
     summaryReported (trace r) ->
     exists pre files,
       exec h wp previousCmd = ExecOk files
       /\ trace r = pre ++ [Exec wp previousCmd; basicSummary (final r)]
       /\ sessionCommits (final r) = S (sessionCommits g)
       /\ sessionFilesCommitted (final r)
          = sessionFilesCommitted g + List.length (JS.lines files))
  /\
  (forall w, let r := AI.autoCommitAndPush h wp w in
     summaryReported (trace r) ->
     exists pre files,
       exec h wp previousCmd = ExecOk files
       /\ trace r = pre ++ [Exec wp previousCmd; aiSummary h (final r)]
       /\ sessionCommits (AI.globals (final r)) = S (sessionCommits (AI.globals w))
       /\ sessionFilesCommitted (AI.globals (final r))
          = sessionFilesCommitted (AI.globals w) + List.length (JS.lines files)).
Proof.
  split; [intros g; apply basic_summary | intros w; apply ai_summary].
Qed.

Lemma summary_tells_counters_witness :
  let listing := nameListing ["a.ts"; "b.ts"] in
  let h := Sample.host (Sample.repo listing Sample.ok Sample.ok (ExecOk listing))
                       Sample.accept true GroqError in
  let r := AI.autoCommitAndPush h "/repo" (Sample.world initialGlobals) in
  exists pre files,
    exec h "/repo" previousCmd = ExecOk files
    /\ trace r = pre ++ [Exec "/repo" previousCmd; aiSummary h (final r)]
    /\ sessionCommits (AI.globals (final r)) = 1
    /\ sessionFilesCommitted (AI.globals (final r)) = 0 + List.length (JS.lines files).
Proof.
  cbv zeta.
  apply (proj2 (summary_tells_counters
                  (Sample.host (Sample.repo (nameListing ["a.ts"; "b.ts"]) Sample.ok
                                            Sample.ok
                                            (ExecOk (nameListing ["a.ts"; "b.ts"])))
                               Sample.accept true GroqError)
                  "/repo") (Sample.world initialGlobals)).
  eexists. split; [vm_compute; do 8 right; left; reflexivity | reflexivity].
Defined.
